(** * ATC scoring pipeline: composite scores, grade ladder, report and export

    A shallow embedding of the scoring core of the animal type
    classification service:

    - [config.py]          : the trait catalogue and the score range;
    - [gemini_analyzer.py] : [_parse_response], [_validate_result] and
                             [_calculate_composite_scores];
    - [atc_scoring.py]     : [validate_score], [get_score_description],
                             [calculate_overall_grade], [_format_scores],
                             [format_report] and [export_for_bpa];
    - [app.py]             : [allowed_file], the stored reports and the
                             result and export routes;
    - [bpa_integration.py] : [__init__], [submit_classification] and
                             [format_submission].

    Python values are modelled as follows.

    - A [dict] is an association list in insertion order ([Dict.t]); a
      dict read from JSON has pairwise distinct keys ([Dict.wf]).
    - An [int] is a [Z].  A [float] is the exact rational value of a finite
      IEEE-754 binary64 number; every floating-point operation is the exact
      operation followed by [rnd64], rounding to nearest with ties to even
      on a 53-bit significand (module [PyFloat]).  Rationals make the order
      of the results provable; module [Binary64] compares the operations
      with the kernel's binary64 arithmetic on the scores of the trait
      catalogue.  The int 5 used as the fallback average and the float 5.0
      are the same rational.
    - A key that may be missing from a dict is an [option] field; the JSON
      value [null] is [None] in a field of type [option Z].
    - [datetime.now()] is an input of [format_report].
    - [json.loads] is a parameter of [_parse_response], and
      [requests.post] one of [submit_classification]. *)

From Stdlib Require Import ZArith QArith Qround Qpower Qabs Qreduction.
From Stdlib Require Import List String Ascii Bool Lia Lqa DecimalString.
From Stdlib Require PrimFloat FloatOps SpecFloat Uint63.
From Stdlib Require Import Permutation.
Import ListNotations.

Local Open Scope Z_scope.

(* ================================================================== *)
(** ** Python floats *)

Module PyFloat.

Local Open Scope Q_scope.

(** [pow2 k] is 2^k for any integer [k]. *)
Definition pow2 (k : Z) : Q := Qpower 2 k.

(** Nearest integer, ties to the even one. *)
Definition round_half_even (x : Q) : Z :=
  let f := Qfloor x in
  match Qcompare (x - inject_Z f) (1 # 2) with
  | Lt => f
  | Gt => (f + 1)%Z
  | Eq => if Z.even f then f else (f + 1)%Z
  end.

(** For [0 < x], the exponent [e] with [2^e <= x < 2^(e+1)]. *)
Definition binade (x : Q) : Z :=
  let l := (Z.log2 (Qnum x) - Z.log2 (Zpos (Qden x)))%Z in
  if Qle_bool (pow2 l) x then l else (l - 1)%Z.

(** Exponent of the unit in the last place of the binary64 numbers of the
    binade of [x]: 53 significant bits, subnormal below 2^-1022. *)
Definition ulp_exp (x : Q) : Z := Z.max (binade x - 52) (-1074).

(** The multiple of [2^k] nearest to [x], ties to the even multiple. *)
Definition round_at (k : Z) (x : Q) : Q :=
  inject_Z (round_half_even (x / pow2 k)) * pow2 k.

Definition round_pos (x : Q) : Q := Qred (round_at (ulp_exp x) x).

(** Round to nearest binary64, ties to even.  The exponent is not bounded
    above: a result of magnitude 2^1024 or more, where Python gives
    [inf] or raises [OverflowError], is outside this model. *)
Definition rnd64 (x : Q) : Q :=
  match Qnum x with
  | Z0 => 0
  | Zpos _ => round_pos x
  | Zneg _ => - round_pos (- x)
  end.

(** [a / n] on two ints: the correctly rounded quotient. *)
Definition truediv (a n : Z) : Q := rnd64 (inject_Z a / inject_Z n).

Definition fmul (x y : Q) : Q := rnd64 (x * y).
Definition fadd (x y : Q) : Q := rnd64 (x + y).

(** The literals [0.6] and [0.4]. *)
Definition c06 : Q := rnd64 0.6.
Definition c04 : Q := rnd64 0.4.

(** [round(x, 2)]: the exact value of [x] is rounded to two decimals, ties
    to even, and the decimal result is converted back to binary64. *)
Definition py_round2 (x : Q) : Q :=
  rnd64 (inject_Z (round_half_even (x * 100)) / 100).

(** Truth value of a number: everything but zero. *)
Definition truthy (x : Q) : bool := negb (Qeq_bool x 0).

Arguments rnd64 : simpl never.
Arguments truediv : simpl never.
Arguments fmul : simpl never.
Arguments fadd : simpl never.
Arguments py_round2 : simpl never.
Arguments c06 : simpl never.
Arguments c04 : simpl never.

End PyFloat.

(* ================================================================== *)
(** ** The kernel's binary64 numbers, to compare [PyFloat] with *)

Module Binary64.
Import PrimFloat PyFloat.

(** The exact value of a finite binary64 number. *)
Definition exact (f : float) : option Q :=
  match FloatOps.Prim2SF f with
  | SpecFloat.S754_zero _ => Some 0%Q
  | SpecFloat.S754_finite s m e =>
      Some ((if s then -1 else 1) * inject_Z (Zpos m) * pow2 e)%Q
  | _ => None
  end.

(** [float(z)] for a small non-negative int. *)
Definition of_int (z : Z) : float := of_uint63 (Uint63.of_Z z).

Definition agrees (f : float) (x : Q) : bool :=
  match exact f with
  | Some y => Qeq_bool y x
  | None => false
  end.

(** The ints [lo], ..., [lo + count - 1]. *)
Definition ints (lo : Z) (count : nat) : list Z :=
  map (fun i => (lo + Z.of_nat i)%Z) (seq 0 count).

(** The sums [a] and counts [n] of up to [most] scores in [1, 9], one pair
    for each value of the quotient [a / n]. *)
Definition means (most : nat) : list (Z * Z) :=
  flat_map
    (fun n =>
       map (fun a => (a, n))
           (filter (fun a => (Z.gcd a n =? 1)%Z)
                   (ints n (Z.to_nat (8 * n + 1)))))
    (ints 1 most).

#[warnings="-inexact-float"]
Definition f06 : float := 0.6%float.

#[warnings="-inexact-float"]
Definition f04 : float := 0.4%float.

End Binary64.

(* ================================================================== *)
(** ** Python dicts *)

Class KeyEq (K : Type) := {
  keqb : K -> K -> bool;
  keqb_spec : forall a b : K, reflect (a = b) (keqb a b)
}.

#[export] Instance string_KeyEq : KeyEq string :=
  {| keqb := String.eqb; keqb_spec := String.eqb_spec |}.

#[export] Instance Z_KeyEq : KeyEq Z :=
  {| keqb := Z.eqb; keqb_spec := Z.eqb_spec |}.

Module Dict.
Section Ops.
Context {K V : Type} `{KeyEq K}.

Definition t := list (K * V).

Definition empty : t := [].

(** [d.get(k)] *)
Fixpoint get (d : t) (k : K) : option V :=
  match d with
  | [] => None
  | (k', v) :: d' => if keqb k' k then Some v else get d' k
  end.

(** [k in d] *)
Definition mem (d : t) (k : K) : bool :=
  match get d k with Some _ => true | None => false end.

(** [d[k] = v]: an existing key keeps its position. *)
Fixpoint set (d : t) (k : K) (v : V) : t :=
  match d with
  | [] => [(k, v)]
  | (k', v') :: d' =>
      if keqb k' k then (k', v) :: d' else (k', v') :: set d' k v
  end.

Definition keys (d : t) : list K := map fst d.

Definition wf (d : t) : Prop := NoDup (keys d).
End Ops.
Arguments t : clear implicits.
End Dict.

(** [o.get(key, default)] on an optional field. *)
Definition get_default {A : Type} (o : option A) (default : A) : A :=
  match o with Some a => a | None => default end.

(* ================================================================== *)
(** ** Python strings *)

Module PyStr.

(** [str.isspace] on one character (code points below 256). *)
Definition is_space (c : ascii) : bool :=
  let n := nat_of_ascii c in
  ((9 <=? n) && (n <=? 13) || (28 <=? n) && (n <=? 32)
   || (n =? 133) || (n =? 160))%nat.

Fixpoint lstrip (s : string) : string :=
  match s with
  | EmptyString => EmptyString
  | String c s' => if is_space c then lstrip s' else s
  end.

Fixpoint rstrip (s : string) : string :=
  match s with
  | EmptyString => EmptyString
  | String c s' =>
      match rstrip s' with
      | EmptyString => if is_space c then EmptyString else String c EmptyString
      | r => String c r
      end
  end.

(** [s.strip()] *)
Definition strip (s : string) : string := rstrip (lstrip s).

(** [s.startswith(p)] *)
Definition startswith (s p : string) : bool := String.prefix p s.

(** [s[n:]] *)
Definition drop (n : nat) (s : string) : string :=
  substring n (String.length s - n) s.

(** [s[:-n]] for [0 < n] *)
Definition drop_last (n : nat) (s : string) : string :=
  substring 0 (String.length s - n) s.

(** [s.endswith(p)] *)
Definition endswith (s p : string) : bool :=
  (String.length p <=? String.length s)%nat
  && String.eqb (drop (String.length s - String.length p) s) p.

(** [str(z)] *)
Definition str_of_int (z : Z) : string := NilZero.string_of_int (Z.to_int z).

End PyStr.

(* ================================================================== *)
(** ** config.py *)

Module Trait.
Record t := {
  id : string;
  name : string;
  description : string
}.
End Trait.

Module Config.
Import Trait.

Definition structural_traits : list Trait.t :=
  [ {| id := "stature"; name := "Stature"; description := "Height at withers" |};
    {| id := "chest_width"; name := "Chest Width"; description := "Width between front legs" |};
    {| id := "body_depth"; name := "Body Depth"; description := "Depth of barrel/body" |};
    {| id := "rump_angle"; name := "Rump Angle"; description := "Slope from hooks to pins" |};
    {| id := "rump_width"; name := "Rump Width"; description := "Width between pin bones" |};
    {| id := "rear_legs"; name := "Rear Legs"; description := "Angle and set of rear legs" |};
    {| id := "foot_angle"; name := "Foot Angle"; description := "Angle of front feet" |};
    {| id := "body_condition"; name := "Body Condition"; description := "Overall body condition score" |} ].

Definition udder_traits : list Trait.t :=
  [ {| id := "fore_udder"; name := "Fore Udder Attachment"; description := "Strength of fore attachment" |};
    {| id := "rear_udder_height"; name := "Rear Udder Height"; description := "Height of rear attachment" |};
    {| id := "udder_depth"; name := "Udder Depth"; description := "Udder floor relative to hocks" |};
    {| id := "teat_placement"; name := "Teat Placement"; description := "Position of teats" |};
    {| id := "teat_length"; name := "Teat Length"; description := "Length of teats" |} ].

Definition ATC_TRAITS : Dict.t string (list Trait.t) :=
  [ ("structural", structural_traits); ("udder", udder_traits) ]%string.

Definition SCORE_MIN : Z := 1.
Definition SCORE_MAX : Z := 9.

End Config.

(* ================================================================== *)
(** ** The raw payload *)

(** The dict [{"score": ..., "notes": ...}] of one trait; either key may
    be missing, and the score may be [null]. *)
Record score_entry := {
  entry_score : option (option Z);
  entry_notes : option string
}.

(** The value stored under a trait identifier: a dict, or a value that is
    not a dict.  The composite calculator skips every value that is not a
    dict; [_format_scores] reads it as the score itself, so the model keeps
    the values a score can have, an int or [null]. *)
Inductive trait_data :=
| DictEntry (e : score_entry)
| BareEntry (v : option Z).

(** [data.get("score")] *)
Definition get_score (e : score_entry) : option Z :=
  match entry_score e with Some v => v | None => None end.

Record composite_scores := {
  structural_composite : Q;
  udder_composite : option Q;
  final_composite : Q
}.

(** The analysis result: the oracle's JSON object, every key optional;
    [composite_scores] is the key [_validate_result] adds. *)
Record payload := {
  animal_detected : option bool;
  animal_type : option string;
  breed_guess : option string;
  sex : option string;
  image_quality : option string;
  image_angle : option string;
  body_parts_visible : option (Dict.t string bool);
  structural_scores : option (Dict.t string trait_data);
  udder_scores : option (Dict.t string trait_data);
  overall_score : option Z;
  overall_assessment : option string;
  recommendations : option (list string);
  payload_composites : option composite_scores
}.

(* ================================================================== *)
(** ** gemini_analyzer.py *)

Module GeminiAnalyzer.
Import PyFloat.

(** The loop
    [for trait, data in scores.items():
         if isinstance(data, dict) and data.get("score") is not None:
             out.append(data["score"])] *)
Definition collect_step (out : list Z) (item : string * trait_data) : list Z :=
  match snd item with
  | DictEntry e =>
      match get_score e with
      | Some z => out ++ [z]
      | None => out
      end
  | BareEntry _ => out
  end.

Definition collect_scores (scores : Dict.t string trait_data) : list Z :=
  fold_left collect_step scores [].

(** [sum(xs)] *)
Definition py_sum (xs : list Z) : Z := fold_left Z.add xs 0%Z.

(** [sum(xs) / len(xs)] *)
Definition average (xs : list Z) : Q :=
  truediv (py_sum xs) (Z.of_nat (List.length xs)).

Definition _calculate_composite_scores (result : payload) : composite_scores :=
  let structural := get_default (structural_scores result) Dict.empty in
  let udder := get_default (udder_scores result) Dict.empty in
  let structural_scores := collect_scores structural in
  let structural_avg :=
    match structural_scores with
    | [] => 5%Q
    | _ :: _ => average structural_scores
    end in
  let udder_scores := collect_scores udder in
  let udder_avg :=
    match udder_scores with
    | [] => None
    | _ :: _ => Some (average udder_scores)
    end in
  let final :=
    match udder_avg with
    | Some u => fadd (fmul structural_avg c06) (fmul u c04)
    | None => structural_avg
    end in
  {| structural_composite := py_round2 structural_avg;
     udder_composite :=
       match udder_avg with
       | Some u => if truthy u then Some (py_round2 u) else None
       | None => None
       end;
     final_composite := py_round2 final |}.

(** [if key not in result: result[key] = default] on an optional field. *)
Definition fill {A : Type} (o : option A) (default : A) : option A :=
  match o with Some a => Some a | None => Some default end.

Definition _validate_result (result : payload) : payload :=
  let result :=
    {| animal_detected := fill (animal_detected result) false;
       animal_type := fill (animal_type result) "unknown"%string;
       breed_guess := fill (breed_guess result) "unknown"%string;
       sex := fill (sex result) "unknown"%string;
       image_quality := fill (image_quality result) "fair"%string;
       image_angle := fill (image_angle result) "unknown"%string;
       body_parts_visible := fill (body_parts_visible result) Dict.empty;
       structural_scores := fill (structural_scores result) Dict.empty;
       udder_scores := fill (udder_scores result) Dict.empty;
       overall_score := fill (overall_score result) 5%Z;
       overall_assessment := fill (overall_assessment result) EmptyString;
       recommendations := fill (recommendations result) [];
       payload_composites := payload_composites result |} in
  {| animal_detected := animal_detected result;
     animal_type := animal_type result;
     breed_guess := breed_guess result;
     sex := sex result;
     image_quality := image_quality result;
     image_angle := image_angle result;
     body_parts_visible := body_parts_visible result;
     structural_scores := structural_scores result;
     udder_scores := udder_scores result;
     overall_score := overall_score result;
     overall_assessment := overall_assessment result;
     recommendations := recommendations result;
     payload_composites := Some (_calculate_composite_scores result) |}.

(** What [json.loads] returns: a JSON object, read as a payload, or a JSON
    value of another kind. *)
Inductive json_kind := JArray | JString | JNumber | JBoolean | JNull.

Inductive decoded :=
| JObject (o : payload)
| JOther (k : json_kind).

(** [json.loads]: a value, or the text of the [JSONDecodeError]. *)
Definition decoder := string -> decoded + string.

(** The dict [_parse_response] returns. *)
Inductive response :=
| Structured (result : payload)
| ErrorResponse (message raw_response : string).

(** A call returns, or an exception leaves it.  The only exceptions of
    [_parse_response] that its handler does not catch are the [TypeError]
    and [AttributeError] of using a non-dict as a dict. *)
Inductive outcome (A : Type) :=
| Returns (a : A)
| Raises_not_a_dict.
Arguments Returns {A} a.
Arguments Raises_not_a_dict {A}.

(** The clean-up before decoding. *)
Definition clean (response_text : string) : string :=
  let text := PyStr.strip response_text in
  let text := if PyStr.startswith text "```json" then PyStr.drop 7 text else text in
  let text := if PyStr.startswith text "```" then PyStr.drop 3 text else text in
  let text := if PyStr.endswith text "```" then PyStr.drop_last 3 text else text in
  PyStr.strip text.

Definition _parse_response (json_loads : decoder) (response_text : string)
  : outcome response :=
  let text := clean response_text in
  match json_loads text with
  | inl (JObject result) => Returns (Structured (_validate_result result))
  | inl (JOther _) => Raises_not_a_dict
  | inr e =>
      Returns (ErrorResponse ("Failed to parse AI response: " ++ e) response_text)
  end.

End GeminiAnalyzer.

(* ================================================================== *)
(** ** The report and its export *)

Module Formatted.
Record t := {
  trait_id : string;
  trait_name : string;
  description : string;
  score : option Z;
  score_description : string;
  notes : string
}.
End Formatted.

Module AnimalInfo.
Record t := {
  type : string;
  breed : string;
  sex : string
}.
End AnimalInfo.

Module ImageAssessment.
Record t := {
  quality : string;
  angle : string;
  body_parts_visible : Dict.t string bool
}.
End ImageAssessment.

Module Scores.
Record t := {
  structural : list Formatted.t;
  udder : list Formatted.t
}.
End Scores.

Module Report.
(** [composites] is [None] for the empty dict [{}]. *)
Record t := {
  report_id : string;
  generated_at : string;
  animal_info : AnimalInfo.t;
  image_assessment : ImageAssessment.t;
  scores : Scores.t;
  composites : option composite_scores;
  overall_grade : string;
  assessment : string;
  recommendations : list string
}.
End Report.

Module BpaExport.
Record t := {
  report_id : string;
  timestamp : string;
  animal_type : string;
  breed : string;
  sex : string;
  structural_scores : Dict.t string (option Z);
  udder_scores : Dict.t string (option Z);
  structural_composite : option Q;
  udder_composite : option Q;
  final_composite : option Q;
  overall_grade : string;
  assessment : string;
  recommendations : list string
}.
End BpaExport.

(* ================================================================== *)
(** ** atc_scoring.py *)

Module ATCScorer.

Local Open Scope string_scope.

(** A dict lookup [d[k]] raises [KeyError] on a missing key: [None]. *)
Definition bind {A B : Type} (o : option A) (f : A -> option B) : option B :=
  match o with Some a => f a | None => None end.

Notation "x <- c1 ;; c2" := (bind c1 (fun x => c2))
  (at level 61, c1 at next level, right associativity).

Definition traits : Dict.t string (list Trait.t) := Config.ATC_TRAITS.
Definition score_min : Z := Config.SCORE_MIN.
Definition score_max : Z := Config.SCORE_MAX.

Definition validate_score (score : option Z) : bool :=
  match score with
  | None => true
  | Some score => ((score_min <=? score) && (score <=? score_max))%Z
  end.

Definition anchors (low mid high : string) : Dict.t Z string :=
  [ (1, low); (5, mid); (9, high) ].

Definition descriptions : Dict.t string (Dict.t Z string) :=
  [ ("stature", anchors "Very short/small" "Average height" "Very tall/large");
    ("chest_width", anchors "Very narrow chest" "Average chest width" "Very wide chest");
    ("body_depth", anchors "Very shallow body" "Average body depth" "Very deep body");
    ("rump_angle", anchors "Pins very high (level)" "Moderate slope" "Pins very low (steep)");
    ("rump_width", anchors "Very narrow rump" "Average rump width" "Very wide rump");
    ("rear_legs", anchors "Very straight (post-legged)" "Intermediate set" "Very sickled");
    ("foot_angle", anchors "Very low angle (flat)" "Intermediate angle" "Very steep angle");
    ("body_condition", anchors "Very thin/emaciated" "Average condition" "Very fat/over-conditioned");
    ("fore_udder", anchors "Weak/loose attachment" "Moderate attachment" "Very strong attachment");
    ("rear_udder_height", anchors "Very low attachment" "Intermediate height" "Very high attachment");
    ("udder_depth", anchors "Well below hocks" "At hock level" "Well above hocks");
    ("teat_placement", anchors "Very wide (outside)" "Central placement" "Very close (inside)");
    ("teat_length", anchors "Very short teats" "Medium length" "Very long teats") ]%string.

Definition get_score_description (trait_id : string) (score : Z) : option string :=
  match Dict.get descriptions trait_id with
  | None => Some ("Score: " ++ PyStr.str_of_int score)%string
  | Some trait_desc =>
      if Dict.mem trait_desc score then Dict.get trait_desc score
      else if (score <? 5)%Z then
        low <- Dict.get trait_desc 1 ;;
        mid <- Dict.get trait_desc 5 ;;
        Some ("Below average (" ++ low ++ " to " ++ mid ++ ")")%string
      else
        mid <- Dict.get trait_desc 5 ;;
        high <- Dict.get trait_desc 9 ;;
        Some ("Above average (" ++ mid ++ " to " ++ high ++ ")")%string
  end.

Definition calculate_overall_grade (composite_score : Q) : string :=
  if Qle_bool 8 composite_score then "Excellent"
  else if Qle_bool 7 composite_score then "Very Good"
  else if Qle_bool 6 composite_score then "Good Plus"
  else if Qle_bool 5 composite_score then "Good"
  else if Qle_bool 4 composite_score then "Average"
  else if Qle_bool 3 composite_score then "Fair"
  else "Poor".

(** [{t['id']: t for t in ts}] *)
Definition index_by_id (ts : list Trait.t) : Dict.t string Trait.t :=
  fold_left (fun d t => Dict.set d (Trait.id t) t) ts Dict.empty.

(** Truth value of a score: neither [None] nor 0. *)
Definition score_truthy (score : option Z) : bool :=
  match score with
  | None => false
  | Some z => negb (z =? 0)%Z
  end.

Definition format_one (trait_defs : Dict.t string Trait.t)
    (item : string * trait_data) : option Formatted.t :=
  let (trait_id, data) := item in
  let (score, notes) :=
    match data with
    | DictEntry e => (get_score e, get_default (entry_notes e) EmptyString)
    | BareEntry v => (v, EmptyString)
    end in
  let (trait_name, description) :=
    match Dict.get trait_defs trait_id with
    | Some trait_def => (Trait.name trait_def, Trait.description trait_def)
    | None => (trait_id, EmptyString)
    end in
  score_description <-
    (match score with
     | Some z => if score_truthy score then get_score_description trait_id z
                 else Some "Not assessed"%string
     | None => Some "Not assessed"%string
     end) ;;
  Some {| Formatted.trait_id := trait_id;
          Formatted.trait_name := trait_name;
          Formatted.description := description;
          Formatted.score := score;
          Formatted.score_description := score_description;
          Formatted.notes := notes |}.

Definition _format_scores (scores : Dict.t string trait_data) (category : string)
  : option (list Formatted.t) :=
  let trait_defs := index_by_id (get_default (Dict.get traits category) []) in
  fold_left
    (fun formatted item =>
       acc <- formatted ;;
       entry <- format_one trait_defs item ;;
       Some (acc ++ [entry])%list)
    scores (Some []).

(** [now_id] is [datetime.now().strftime("%Y%m%d%H%M%S")] and [now_iso] is
    [datetime.now().isoformat()]. *)
Definition format_report (now_id now_iso : string) (analysis_result : payload)
  : option Report.t :=
  structural <-
    _format_scores (get_default (structural_scores analysis_result) Dict.empty)
                   "structural" ;;
  udder <-
    _format_scores (get_default (udder_scores analysis_result) Dict.empty)
                   "udder" ;;
  Some {|
    Report.report_id := now_id;
    Report.generated_at := now_iso;
    Report.animal_info := {|
      AnimalInfo.type := get_default (animal_type analysis_result) "unknown";
      AnimalInfo.breed := get_default (breed_guess analysis_result) "unknown";
      AnimalInfo.sex := get_default (sex analysis_result) "unknown" |};
    Report.image_assessment := {|
      ImageAssessment.quality := get_default (image_quality analysis_result) "fair";
      ImageAssessment.angle := get_default (image_angle analysis_result) "unknown";
      ImageAssessment.body_parts_visible :=
        get_default (body_parts_visible analysis_result) Dict.empty |};
    Report.scores := {| Scores.structural := structural; Scores.udder := udder |};
    Report.composites := payload_composites analysis_result;
    Report.overall_grade :=
      calculate_overall_grade
        (match payload_composites analysis_result with
         | Some c => final_composite c
         | None => 5%Q
         end);
    Report.assessment := get_default (overall_assessment analysis_result) EmptyString;
    Report.recommendations := get_default (recommendations analysis_result) []
  |}.

(** The loop [for score_data in xs: out[score_data["trait_id"]] = score_data["score"]] *)
Definition flatten_scores (xs : list Formatted.t) : Dict.t string (option Z) :=
  fold_left
    (fun out score_data =>
       Dict.set out (Formatted.trait_id score_data) (Formatted.score score_data))
    xs Dict.empty.

Definition export_for_bpa (report : Report.t) : BpaExport.t :=
  let structural_scores := flatten_scores (Scores.structural (Report.scores report)) in
  let udder_scores := flatten_scores (Scores.udder (Report.scores report)) in
  {| BpaExport.report_id := Report.report_id report;
     BpaExport.timestamp := Report.generated_at report;
     BpaExport.animal_type := AnimalInfo.type (Report.animal_info report);
     BpaExport.breed := AnimalInfo.breed (Report.animal_info report);
     BpaExport.sex := AnimalInfo.sex (Report.animal_info report);
     BpaExport.structural_scores := structural_scores;
     BpaExport.udder_scores := udder_scores;
     BpaExport.structural_composite :=
       option_map structural_composite (Report.composites report);
     BpaExport.udder_composite :=
       match Report.composites report with
       | Some c => udder_composite c
       | None => None
       end;
     BpaExport.final_composite :=
       option_map final_composite (Report.composites report);
     BpaExport.overall_grade := Report.overall_grade report;
     BpaExport.assessment := Report.assessment report;
     BpaExport.recommendations := Report.recommendations report |}.

End ATCScorer.

(* ================================================================== *)
(** ** Notions used to state the properties *)

Module Spec.
Import PyFloat.

Local Open Scope string_scope.

(** The score a payload carries for one trait: the ["score"] of a dict
    ([null] when the key is missing), or the bare value itself. *)
Definition data_score (data : trait_data) : option Z :=
  match data with
  | DictEntry e => get_score e
  | BareEntry v => v
  end.

(** The trait -> score pairs of a score map. *)
Definition score_pairs (scores : Dict.t string trait_data)
  : Dict.t string (option Z) :=
  map (fun item => (fst item, data_score (snd item))) scores.

(** A per-trait entry that takes part in a composite: a dict whose
    ["score"] is present and not [null]. *)
Definition scored (data : trait_data) : option Z :=
  match data with
  | DictEntry {| entry_score := Some (Some z) |} => Some z
  | _ => None
  end.

Definition is_scored (item : string * trait_data) : bool :=
  match scored (snd item) with Some _ => true | None => false end.

(** The present (non-null) scores of a score map, in order. *)
Fixpoint present_scores (scores : Dict.t string trait_data) : list Z :=
  match scores with
  | [] => []
  | (_, data) :: rest =>
      match scored data with
      | Some z => z :: present_scores rest
      | None => present_scores rest
      end
  end.

(** Arithmetic mean in Python's arithmetic: the sum divided by the count. *)
Definition mean (xs : list Z) : Q :=
  truediv (fold_right Z.add 0%Z xs) (Z.of_nat (List.length xs)).

(** The mean of the scores, or [default] when there is none. *)
Definition mean_or (default : Q) (xs : list Z) : Q :=
  match xs with
  | [] => default
  | _ :: _ => mean xs
  end.

(** The score maps of a payload, [{}] when the key is missing. *)
Definition structural_of (p : payload) : Dict.t string trait_data :=
  get_default (structural_scores p) Dict.empty.

Definition udder_of (p : payload) : Dict.t string trait_data :=
  get_default (udder_scores p) Dict.empty.

(** Every present score passes [validate_score]: it lies in [1, 9]. *)
Definition scores_valid (scores : Dict.t string trait_data) : Prop :=
  Forall (fun z => ATCScorer.validate_score (Some z) = true)
         (present_scores scores).

(** The text chosen for a score on a table with anchors [low], [mid] and
    [high]. *)
Definition interpretation (low mid high : string) (score : Z) : string :=
  if (score =? 1)%Z then low
  else if (score =? 5)%Z then mid
  else if (score =? 9)%Z then high
  else if (score <? 5)%Z then "Below average (" ++ low ++ " to " ++ mid ++ ")"
  else "Above average (" ++ mid ++ " to " ++ high ++ ")".

(** Position of a grade label on the ladder. *)
Definition grade_rank (label : string) : nat :=
  if label =? "Excellent" then 6
  else if label =? "Very Good" then 5
  else if label =? "Good Plus" then 4
  else if label =? "Good" then 3
  else if label =? "Average" then 2
  else if label =? "Fair" then 1
  else 0.

Definition grade_labels : list string :=
  [ "Poor"; "Fair"; "Average"; "Good"; "Good Plus"; "Very Good"; "Excellent" ].

(** A payload with every key missing but the two score maps. *)
Definition payload_of_scores (structural udder : Dict.t string trait_data)
  : payload :=
  {| animal_detected := None; animal_type := None; breed_guess := None;
     sex := None; image_quality := None; image_angle := None;
     body_parts_visible := None;
     structural_scores := Some structural; udder_scores := Some udder;
     overall_score := None; overall_assessment := None;
     recommendations := None; payload_composites := None |}.

(** A report field copied from an optional payload field: the payload's
    value when the key is there, [default] when it is missing. *)
Definition copied_or (default : string) (field : option string)
    (out : string) : Prop :=
  match field with
  | Some v => out = v
  | None => out = default
  end.

(** A decoder that reads the text [[]] as the empty JSON array, as
    [json.loads] does, and rejects every other text. *)
Definition array_decoder : GeminiAnalyzer.decoder :=
  fun text =>
    if text =? "[]" then inl (GeminiAnalyzer.JOther GeminiAnalyzer.JArray)
    else inr "Expecting value: line 1 column 1 (char 0)".

(** The entry with score [z] and empty notes. *)
Definition entry (z : Z) : trait_data :=
  DictEntry {| entry_score := Some (Some z); entry_notes := Some EmptyString |}.

End Spec.

(* ================================================================== *)
(** ** More of Python's strings *)

Module PyText.

(** [c in s] for a character [c] *)
Fixpoint contains (c : ascii) (s : string) : bool :=
  match s with
  | EmptyString => false
  | String a s' => Ascii.eqb a c || contains c s'
  end.

(** [s.rsplit(c, 1)[1]]: what follows the last [c]; the [IndexError] of a
    string without [c] is [None]. *)
Fixpoint after_last (c : ascii) (s : string) : option string :=
  match s with
  | EmptyString => None
  | String a s' =>
      match after_last c s' with
      | Some t => Some t
      | None => if Ascii.eqb a c then Some s' else None
      end
  end.

(** [str.lower] on one character (code points below 256): the letters A
    to Z and the capital letters of Latin-1 move 32 places up. *)
Definition lower_char (c : ascii) : ascii :=
  let n := nat_of_ascii c in
  if ((65 <=? n) && (n <=? 90) || (192 <=? n) && (n <=? 214)
      || (216 <=? n) && (n <=? 222))%nat
  then ascii_of_nat (n + 32)
  else c.

(** [s.lower()] *)
Fixpoint lower (s : string) : string :=
  match s with
  | EmptyString => EmptyString
  | String c s' => String (lower_char c) (lower s')
  end.

(** [x or y] for an optional string [x]: [x] unless it is [None] or
    empty. *)
Definition or_else (x : option string) (y : string) : string :=
  match x with
  | Some (String c s) => String c s
  | _ => y
  end.

(** Truth value of a string: anything but the empty string. *)
Definition nonempty (s : string) : bool :=
  match s with
  | EmptyString => false
  | String _ _ => true
  end.

End PyText.

(* ================================================================== *)
(** ** bpa_integration.py *)

Module BPAIntegration.
Local Open Scope string_scope.

Section Client.
(** The type of decoded JSON data and the type of a location. *)
Context {J L : Type}.

(** The exceptions the handlers of [submit_classification] tell apart:
    [requests.exceptions.Timeout], any other
    [requests.exceptions.RequestException], and everything else. *)
Inductive exn :=
| Timeout (e : string)
| RequestException (e : string)
| OtherException.

(** What [requests.post] hands back: status, body text, and what
    [response.json()] gives, data or an exception. *)
Record response := {
  status_code : Z;
  text : string;
  json : J + exn
}.

Record submission := {
  submission_timestamp : string;
  source : string;
  version : string;
  animal_id : option string;
  farmer_id : option string;
  location : option L;
  classification_data : BpaExport.t
}.

(** [requests.post(url, headers=headers, json=data, timeout=30)] *)
Definition poster :=
  string -> Dict.t string string -> submission -> response + exn.

Record t := {
  api_url : string;
  api_key : string;
  is_configured : bool
}.

(** [__init__]; [config_url] and [config_key] are [Config.BPA_API_URL] and
    [Config.BPA_API_KEY], read from the environment. *)
Definition init (config_url config_key : string)
    (api_url api_key : option string) : t :=
  let api_url := PyText.or_else api_url config_url in
  let api_key := PyText.or_else api_key config_key in
  {| api_url := api_url;
     api_key := api_key;
     is_configured := PyText.nonempty api_url && PyText.nonempty api_key |}.

(** The ["data"] of a result: [None], decoded JSON, or the body text. *)
Inductive result_data :=
| NoData
| JsonData (j : J)
| TextData (s : string).

Record result := {
  success : bool;
  message : string;
  data : result_data
}.

(** The result a handler builds for an exception, or the exception that
    no handler catches.  The [logger.error] calls are left out. *)
Definition handle (e : exn) : result + exn :=
  match e with
  | Timeout _ =>
      inl {| success := false;
             message := "Request to BPA timed out";
             data := NoData |}
  | RequestException e =>
      inl {| success := false;
             message := "Failed to connect to BPA: " ++ e;
             data := NoData |}
  | OtherException => inr OtherException
  end.

Definition submit_classification (post : poster) (self : t)
    (data : submission) : result + exn :=
  if negb (is_configured self) then
    inl {| success := false;
           message := "BPA integration not configured. Please set BPA_API_URL and BPA_API_KEY.";
           data := NoData |}
  else
    let headers :=
      [ ("Authorization", "Bearer " ++ api_key self);
        ("Content-Type", "application/json") ] in
    match post (api_url self) headers data with
    | inr e => handle e
    | inl response =>
        if (status_code response =? 200)%Z then
          match json response with
          | inl j =>
              inl {| success := true;
                     message := "Data successfully submitted to BPA";
                     data := JsonData j |}
          | inr e => handle e
          end
        else
          inl {| success := false;
                 message := "BPA API returned status "
                            ++ PyStr.str_of_int (status_code response);
                 data := TextData (text response) |}
    end.

(** [now_iso] is [datetime.now().isoformat()]. *)
Definition format_submission (now_iso : string) (report : BpaExport.t)
    (animal_id farmer_id : option string) (location : option L)
  : submission :=
  {| submission_timestamp := now_iso;
     source := "AI-ATC-System";
     version := "1.0.0";
     animal_id := animal_id;
     farmer_id := farmer_id;
     location := location;
     classification_data := report |}.

End Client.
Arguments exn : clear implicits.
Arguments response : clear implicits.
Arguments submission : clear implicits.
Arguments poster : clear implicits.
Arguments result_data : clear implicits.
Arguments result : clear implicits.
End BPAIntegration.

(* ================================================================== *)
(** ** app.py *)

Module App.
Local Open Scope string_scope.

Definition ALLOWED_EXTENSIONS : list string := [ "png"; "jpg"; "jpeg"; "webp" ].

Definition allowed_file (filename : string) : bool :=
  if PyText.contains "." filename then
    match PyText.after_last "." filename with
    | Some extension =>
        existsb (String.eqb (PyText.lower extension)) ALLOWED_EXTENSIONS
    | None => false
    end
  else false.

(** A stored report: the report and the ["image_path"] key added to it. *)
Record stored := {
  report : Report.t;
  image_path : string
}.

(** [analysis_results] *)
Definition results := Dict.t string stored.

(** A JSON reply with status 200, or the error reply with status 404. *)
Inductive reply (A : Type) :=
| Ok (body : A)
| NotFound (error : string).
Arguments Ok {A} body.
Arguments NotFound {A} error.

(** The end of [upload_file] for an analysis result without error: the
    report is built, gets its image path, and is stored under its
    identifier. *)
Definition store_report (analysis_results : results)
    (now_id now_iso filename : string) (result : payload)
  : option (results * stored) :=
  match ATCScorer.format_report now_id now_iso result with
  | Some report =>
      let report := {| report := report; image_path := filename |} in
      let report_id := Report.report_id (App.report report) in
      Some (Dict.set analysis_results report_id report, report)
  | None => None
  end.

Definition get_result_api (analysis_results : results) (report_id : string)
  : reply stored :=
  match Dict.get analysis_results report_id with
  | None => NotFound "Report not found"
  | Some report => Ok report
  end.

Definition export_result (analysis_results : results) (report_id : string)
  : reply BpaExport.t :=
  match Dict.get analysis_results report_id with
  | None => NotFound "Report not found"
  | Some report => Ok (ATCScorer.export_for_bpa (App.report report))
  end.

(** The JSON object of a submission request, by the keys the route reads:
    a key that is missing or [null] reads as [None]. *)
Record request_json {L : Type} := {
  body_animal_id : option string;
  body_farmer_id : option string;
  body_location : option L
}.
Arguments request_json : clear implicits.

(** [{}] *)
Definition empty_object {L : Type} : request_json L :=
  {| body_animal_id := None; body_farmer_id := None; body_location := None |}.

(** A decoded JSON body: an object, or a value that is not an object and is
    falsy ([null], [false], [0], the empty string, the empty array) or
    truthy. *)
Inductive json_body (L : Type) :=
| Object (o : request_json L)
| Falsy
| Truthy.
Arguments Object {L} o.
Arguments Falsy {L}.
Arguments Truthy {L}.

(** The exceptions of [request.get_json()]: 415 for a request whose
    Content-Type is not application/json, as a request without a body is,
    and 400 for a body that is not JSON. *)
Inductive http_error :=
| UnsupportedMediaType
| BadRequest.

(** What leaves a view function as an exception. *)
Inductive raised :=
| HTTPException (e : http_error)
| AttributeError
| Uncaught (e : BPAIntegration.exn).

(** [data = request.get_json() or {}], read with [data.get]: [None] stands
    for a value without a [get] method. *)
Definition body_or_empty {L : Type} (body : json_body L)
  : option (request_json L) :=
  match body with
  | Object o => Some o
  | Falsy => Some empty_object
  | Truthy => None
  end.

(** [get_json] is what [request.get_json()] returns or raises on the
    request; [now_iso] is the [datetime.now().isoformat()] of
    [format_submission]. *)
Definition submit_to_bpa {J L : Type} (post : BPAIntegration.poster J L)
    (bpa_client : BPAIntegration.t) (now_iso : string)
    (analysis_results : results) (report_id : string)
    (get_json : json_body L + http_error)
  : reply (BPAIntegration.result J) + raised :=
  match Dict.get analysis_results report_id with
  | None => inl (NotFound "Report not found")
  | Some report =>
      match get_json with
      | inr e => inr (HTTPException e)
      | inl body =>
          let bpa_data := ATCScorer.export_for_bpa (App.report report) in
          match body_or_empty body with
          | None => inr AttributeError
          | Some data =>
              let submission :=
                BPAIntegration.format_submission now_iso bpa_data
                  (body_animal_id data) (body_farmer_id data)
                  (body_location data) in
              match BPAIntegration.submit_classification post bpa_client
                      submission with
              | inl result => inl (Ok result)
              | inr e => inr (Uncaught e)
              end
          end
      end
  end.

End App.

(* ================================================================== *)
(** ** Further notions used to state properties *)

Module Notions.
Import ATCScorer Spec.
Local Open Scope string_scope.

(** The traits of a category in [config.py]; none for another category. *)
Definition catalogue (category : string) : list Trait.t :=
  get_default (Dict.get traits category) [].

(** Name and description shown for a trait identifier in a category: those
    of the catalogue, or the identifier itself and an empty description. *)
Definition display_of (category trait_id : string) : string * string :=
  match find (fun t => Trait.id t =? trait_id) (catalogue category) with
  | Some t => (Trait.name t, Trait.description t)
  | None => (trait_id, EmptyString)
  end.

(** The notes of an entry, empty when there are none. *)
Definition notes_of (data : trait_data) : string :=
  match data with
  | DictEntry e => get_default (entry_notes e) EmptyString
  | BareEntry _ => EmptyString
  end.

(** The text shown for a score. *)
Definition shown_description (trait_id : string) (score : option Z)
  : option string :=
  match score with
  | None => Some "Not assessed"
  | Some z => if (z =? 0)%Z then Some "Not assessed"
              else get_score_description trait_id z
  end.

(** Whether a trait identifier is in the catalogue of [config.py]. *)
Definition in_catalogue (trait_id : string) : bool :=
  existsb (fun t => Trait.id t =? trait_id)
          (Config.structural_traits ++ Config.udder_traits).


(** The line feed. *)
Definition nl : string := String (ascii_of_nat 10) EmptyString.

(** A body inside a markdown code fence with the given language tag. *)
Definition fenced (tag body : string) : string :=
  "```" ++ tag ++ nl ++ body ++ nl ++ "```".

(** A string of whitespace only. *)
Fixpoint blank (s : string) : bool :=
  match s with
  | EmptyString => true
  | String c s' => PyStr.is_space c && blank s'
  end.


(** A string that does not start with whitespace. *)
Definition first_not_space (s : string) : Prop :=
  match s with
  | EmptyString => True
  | String c _ => PyStr.is_space c = false
  end.

End Notions.

(* ================================================================== *)
(** * Properties *)

(* ------------------------------------------------------------------ *)
(** ** Rounding *)

Module FloatFacts.
Import PyFloat.
Local Open Scope Q_scope.

Lemma Qle_bool_false (a b : Q) : Qle_bool a b = false -> b < a.
Proof.
  intros E. apply Qnot_le_lt. intros L.
  apply Qle_bool_iff in L. congruence.
Qed.

Lemma two_nonzero : ~ 2 == 0.
Proof. discriminate. Qed.

Lemma pow2_pos (k : Z) : 0 < pow2 k.
Proof. apply Qpower_0_lt. reflexivity. Qed.

Lemma pow2_add (a b : Z) : pow2 (a + b) == pow2 a * pow2 b.
Proof. apply Qpower_plus, two_nonzero. Qed.

Lemma pow2_le (a b : Z) : (a <= b)%Z -> pow2 a <= pow2 b.
Proof. intros L. apply Qpower_le_compat_l; [exact L | discriminate]. Qed.

Lemma pow2_lt (a b : Z) : (a < b)%Z -> pow2 a < pow2 b.
Proof. intros L. apply Qpower_lt_compat_l; [exact L | reflexivity]. Qed.

Lemma pow2_Z (k : Z) : (0 <= k)%Z -> pow2 k == inject_Z (2 ^ k).
Proof. intros P. symmetry. exact (Zpower_Qpower 2 k P). Qed.

(** Linear arithmetic over [Q] with the injected integers as atoms. *)
Ltac qlinear :=
  repeat match goal with
    | |- context [inject_Z ?z] =>
        let q := fresh "q" in set (q := inject_Z z) in *; clearbody q
    | H : context [inject_Z ?z] |- _ =>
        let q := fresh "q" in set (q := inject_Z z) in *; clearbody q
    end;
  lra.

(** *** Rounding to the nearest integer *)

Lemma round_half_even_cases (x : Q) :
  let f := Qfloor x in
  (round_half_even x = f /\ x - inject_Z f <= 1 # 2) \/
  (round_half_even x = (f + 1)%Z /\ 1 # 2 <= x - inject_Z f).
Proof.
  intros f. unfold round_half_even. fold f.
  destruct (Qcompare_spec (x - inject_Z f) (1 # 2)) as [E|L|G].
  - destruct (Z.even f); [left | right]; split; try reflexivity;
      rewrite E; apply Qle_refl.
  - left. split; [reflexivity | apply Qlt_le_weak, L].
  - right. split; [reflexivity | apply Qlt_le_weak, G].
Qed.

Lemma round_half_even_comp (x y : Q) :
  x == y -> round_half_even x = round_half_even y.
Proof.
  intros E. unfold round_half_even.
  rewrite (Qfloor_comp x y E).
  assert (C : Qcompare (x - inject_Z (Qfloor y)) (1 # 2)
              = Qcompare (y - inject_Z (Qfloor y)) (1 # 2))
    by (apply Qcompare_comp; [now rewrite E | reflexivity]).
  now rewrite C.
Qed.

Lemma round_half_even_Z (z : Z) : round_half_even (inject_Z z) = z.
Proof.
  unfold round_half_even. rewrite Qfloor_Z.
  assert (C : Qcompare (inject_Z z - inject_Z z) (1 # 2) = Lt).
  { rewrite <- Qlt_alt. qlinear. }
  now rewrite C.
Qed.

Lemma round_half_even_mono (x y : Q) :
  x <= y -> (round_half_even x <= round_half_even y)%Z.
Proof.
  intros L.
  pose proof (Qfloor_resp_le x y L) as F.
  pose proof (Qfloor_le x) as Lx. pose proof (Qlt_floor x) as Ux.
  pose proof (Qfloor_le y) as Ly. pose proof (Qlt_floor y) as Uy.
  destruct (Z.eq_dec (Qfloor x) (Qfloor y)) as [E|N].
  - unfold round_half_even. rewrite E in *.
    destruct (Qcompare_spec (x - inject_Z (Qfloor y)) (1 # 2)) as [Ex|Lx'|Gx];
    destruct (Qcompare_spec (y - inject_Z (Qfloor y)) (1 # 2)) as [Ey|Ly'|Gy];
      try destruct (Z.even (Qfloor y)); try lia; exfalso; qlinear.
  - destruct (round_half_even_cases x) as [[-> _]|[-> _]];
    destruct (round_half_even_cases y) as [[-> _]|[-> _]]; lia.
Qed.

(** *** The binade of a positive rational *)

Lemma pow2_ratio (i j : Z) :
  (0 <= i)%Z -> (0 <= j)%Z -> pow2 (i - j) == 2 ^ i # Z.to_pos (2 ^ j).
Proof.
  intros Pi Pj. unfold pow2.
  rewrite Qpower_minus by exact two_nonzero.
  fold (pow2 i) (pow2 j). rewrite (pow2_Z i Pi), (pow2_Z j Pj).
  rewrite (Qmake_Qdiv (2 ^ i) (Z.to_pos (2 ^ j))).
  rewrite Z2Pos.id by (apply Z.pow_pos_nonneg; lia).
  reflexivity.
Qed.

Lemma binade_spec (x : Q) :
  0 < x -> pow2 (binade x) <= x /\ x < pow2 (binade x + 1).
Proof.
  destruct x as [p q]. intros P.
  assert (Pp : (0 < p)%Z) by (unfold Qlt in P; simpl in P; lia).
  unfold binade. cbn [Qnum Qden].
  set (a := Z.log2 p). set (b := Z.log2 (Z.pos q)).
  assert (Pa : (0 <= a)%Z) by apply Z.log2_nonneg.
  assert (Pb : (0 <= b)%Z) by apply Z.log2_nonneg.
  destruct (Z.log2_spec p Pp) as [La Ua]. fold a in La, Ua.
  destruct (Z.log2_spec (Z.pos q) (Pos2Z.is_pos q)) as [Lb Ub].
  fold b in Lb, Ub.
  rewrite Z.pow_succ_r in Ua, Ub by assumption.
  assert (Ta : (0 < 2 ^ a)%Z) by (apply Z.pow_pos_nonneg; lia).
  assert (Tb : (0 < 2 ^ b)%Z) by (apply Z.pow_pos_nonneg; lia).
  assert (Up : p # q < pow2 (a - b + 1)).
  { replace (a - b + 1)%Z with ((a + 1) - b)%Z by lia.
    rewrite pow2_ratio by lia.
    unfold Qlt. cbn [Qnum Qden].
    rewrite Z2Pos.id by exact Tb.
    rewrite Z.pow_add_r by lia. change (2 ^ 1)%Z with 2%Z. nia. }
  assert (Lo : pow2 (a - b - 1) <= p # q).
  { replace (a - b - 1)%Z with (a - (b + 1))%Z by lia.
    rewrite pow2_ratio by lia.
    unfold Qle. cbn [Qnum Qden].
    rewrite Z2Pos.id by (apply Z.pow_pos_nonneg; lia).
    rewrite (Z.pow_add_r 2 b 1) by lia. change (2 ^ 1)%Z with 2%Z. nia. }
  destruct (Qle_bool (pow2 (a - b)) (p # q)) eqn:T.
  - apply Qle_bool_iff in T. split; assumption.
  - apply Qle_bool_false in T. split; [exact Lo|].
    now replace (a - b - 1 + 1)%Z with (a - b)%Z by lia.
Qed.

(** The binade is the only exponent with that property, and it grows with
    the number. *)
Lemma binade_le (x y : Q) (e f : Z) :
  pow2 e <= x -> y < pow2 (f + 1) -> x <= y -> (e <= f)%Z.
Proof.
  intros Lx Uy L.
  destruct (Z_le_gt_dec e f) as [|G]; [assumption | exfalso].
  assert (pow2 (f + 1) <= pow2 e) by (apply pow2_le; lia).
  lra.
Qed.

Lemma binade_mono (x y : Q) : 0 < x -> x <= y -> (binade x <= binade y)%Z.
Proof.
  intros P L.
  destruct (binade_spec x P) as [Lx _].
  destruct (binade_spec y) as [_ Uy]; [lra|].
  exact (binade_le x y _ _ Lx Uy L).
Qed.

Lemma binade_unique (x : Q) (e : Z) :
  pow2 e <= x -> x < pow2 (e + 1) -> binade x = e.
Proof.
  intros L U.
  assert (P : 0 < x) by (pose proof (pow2_pos e); lra).
  destruct (binade_spec x P) as [Lb Ub].
  pose proof (binade_le x x _ _ L Ub (Qle_refl x)).
  pose proof (binade_le x x _ _ Lb U (Qle_refl x)).
  lia.
Qed.

(** *** Rounding to binary64 *)

Lemma round_at_mono (k : Z) (x y : Q) :
  x <= y -> round_at k x <= round_at k y.
Proof.
  intros L. unfold round_at.
  pose proof (pow2_pos k) as Pk.
  apply Qmult_le_compat_r; [|lra].
  rewrite <- Zle_Qle. apply round_half_even_mono.
  apply Qmult_le_compat_r; [exact L|].
  apply Qlt_le_weak, Qinv_lt_0_compat, Pk.
Qed.

Lemma round_at_grid (k m : Z) :
  round_at k (inject_Z m * pow2 k) == inject_Z m * pow2 k.
Proof.
  unfold round_at.
  pose proof (pow2_pos k) as Pk.
  assert (E : inject_Z m * pow2 k / pow2 k == inject_Z m)
    by (field; lra).
  now rewrite (round_half_even_comp _ _ E), round_half_even_Z.
Qed.

Lemma round_at_comp (k : Z) (x y : Q) :
  x == y -> round_at k x == round_at k y.
Proof.
  intros E. unfold round_at.
  assert (D : x / pow2 k == y / pow2 k) by now rewrite E.
  now rewrite (round_half_even_comp _ _ D).
Qed.

Lemma round_at_pow2 (k e : Z) : (k <= e)%Z -> round_at k (pow2 e) == pow2 e.
Proof.
  intros L.
  assert (E : pow2 e == inject_Z (2 ^ (e - k)) * pow2 k).
  { rewrite <- pow2_Z by lia. rewrite <- pow2_add.
    now replace (e - k + k)%Z with e by lia. }
  rewrite (round_at_comp k _ _ E), round_at_grid. now rewrite E.
Qed.

Lemma round_at_lower (k e : Z) (x : Q) :
  (k <= e)%Z -> pow2 e <= x -> pow2 e <= round_at k x.
Proof.
  intros L B. rewrite <- (round_at_pow2 k e L). now apply round_at_mono.
Qed.

Lemma round_at_upper (k e : Z) (x : Q) :
  (k <= e)%Z -> x <= pow2 e -> round_at k x <= pow2 e.
Proof.
  intros L B. rewrite <- (round_at_pow2 k e L). now apply round_at_mono.
Qed.

Lemma round_pos_eq (x : Q) : round_pos x == round_at (ulp_exp x) x.
Proof. apply Qred_correct. Qed.

Lemma round_pos_mono (x y : Q) :
  0 < x -> x <= y -> round_pos x <= round_pos y.
Proof.
  intros P L. rewrite !round_pos_eq.
  assert (Py : 0 < y) by lra.
  pose proof (binade_mono x y P L) as Me.
  destruct (binade_spec x P) as [_ Ux].
  destruct (binade_spec y Py) as [Ly _].
  unfold ulp_exp.
  set (ex := binade x) in *. set (ey := binade y) in *.
  destruct (Z.eq_dec (Z.max (ex - 52) (-1074)) (Z.max (ey - 52) (-1074)))
    as [E|N].
  - rewrite E. now apply round_at_mono.
  - apply Qle_trans with (pow2 ey).
    + apply Qle_trans with (pow2 (Z.max (ex + 1) (Z.max (ex - 52) (-1074)))).
      * apply round_at_upper; [lia|].
        apply Qle_trans with (pow2 (ex + 1)); [lra | apply pow2_le; lia].
      * apply pow2_le. lia.
    + apply round_at_lower; [lia | exact Ly].
Qed.

Lemma rnd64_pos (x : Q) : 0 < x -> rnd64 x = round_pos x.
Proof.
  destruct x as [[|p|p] q]; intros P; try reflexivity;
    unfold Qlt in P; simpl in P; lia.
Qed.

(** Rounding to binary64 keeps the order of positive numbers. *)
Lemma rnd64_mono (x y : Q) : 0 < x -> x <= y -> rnd64 x <= rnd64 y.
Proof.
  intros P L. rewrite (rnd64_pos x P), (rnd64_pos y) by lra.
  now apply round_pos_mono.
Qed.

Lemma rnd64_comp (x y : Q) : 0 < x -> x == y -> rnd64 x == rnd64 y.
Proof.
  intros P E. apply Qle_antisym; apply rnd64_mono; lra.
Qed.
End FloatFacts.

(* ------------------------------------------------------------------ *)
(** ** Agreement with the kernel's binary64 arithmetic *)

Module Binary64Facts.
Import PrimFloat PyFloat Binary64.

(** The literals 0.6 and 0.4. *)
Lemma literals_agree : agrees f06 c06 && agrees f04 c04 = true.
Proof. vm_cast_no_check (eq_refl true). Qed.

(** The mean of up to sixteen scores in [1, 9]. *)
Lemma quotients_agree :
  forallb (fun an => agrees (div (of_int (fst an)) (of_int (snd an)))
                            (truediv (fst an) (snd an)))
          (means 16) = true.
Proof. vm_cast_no_check (eq_refl true). Qed.

(** The conversion of a number of hundredths in [0, 9] to a float. *)
Lemma hundredths_agree :
  forallb (fun r => agrees (div (of_int r) (of_int 100))
                           (rnd64 (inject_Z r / 100)))
          (ints 0 901) = true.
Proof. vm_cast_no_check (eq_refl true). Qed.

(** The two products of the blend, for the mean of up to eight structural
    scores and the mean of up to five udder scores, all in [1, 9]; and the
    sum of the two, for up to four structural and three udder scores. *)
Lemma blends_agree :
  let product c k an :=
    (mul (div (of_int (fst an)) (of_int (snd an))) c,
     fmul (truediv (fst an) (snd an)) k) in
  forallb (fun x => agrees (fst x) (snd x))
          (map (product f06 c06) (means 8) ++ map (product f04 c04) (means 5))
  && forallb (fun x =>
       forallb (fun y => agrees (add (fst x) (fst y)) (fadd (snd x) (snd y)))
               (map (product f04 c04) (means 3)))
       (map (product f06 c06) (means 4)) = true.
Proof. vm_cast_no_check (eq_refl true). Qed.

End Binary64Facts.

(* ------------------------------------------------------------------ *)
(** ** The grade ladder *)

Module GradeFacts.
Import ATCScorer Spec FloatFacts.
Local Open Scope Q_scope.

(** Replace every threshold test by the inequality it decides. *)
Ltac thresholds :=
  unfold calculate_overall_grade;
  repeat match goal with
    | |- context [Qle_bool ?a ?b] =>
        let E := fresh "E" in
        destruct (Qle_bool a b) eqn:E;
        [ apply Qle_bool_iff in E | apply Qle_bool_false in E ]
    end.

Lemma grade_excellent x : 8 <= x -> calculate_overall_grade x = "Excellent"%string.
Proof. intros. thresholds; try reflexivity; lra. Qed.

Lemma grade_very_good x :
  7 <= x -> x < 8 -> calculate_overall_grade x = "Very Good"%string.
Proof. intros. thresholds; try reflexivity; lra. Qed.

Lemma grade_good_plus x :
  6 <= x -> x < 7 -> calculate_overall_grade x = "Good Plus"%string.
Proof. intros. thresholds; try reflexivity; lra. Qed.

Lemma grade_good x :
  5 <= x -> x < 6 -> calculate_overall_grade x = "Good"%string.
Proof. intros. thresholds; try reflexivity; lra. Qed.

Lemma grade_average x :
  4 <= x -> x < 5 -> calculate_overall_grade x = "Average"%string.
Proof. intros. thresholds; try reflexivity; lra. Qed.

Lemma grade_fair x :
  3 <= x -> x < 4 -> calculate_overall_grade x = "Fair"%string.
Proof. intros. thresholds; try reflexivity; lra. Qed.

Lemma grade_poor x : x < 3 -> calculate_overall_grade x = "Poor"%string.
Proof. intros. thresholds; try reflexivity; lra. Qed.

Lemma grade_monotone x y :
  x <= y ->
  (grade_rank (calculate_overall_grade x)
   <= grade_rank (calculate_overall_grade y))%nat.
Proof.
  intros L. thresholds;
    match goal with
    | |- (?a <= ?b)%nat =>
        let a' := eval vm_compute in a in
        let b' := eval vm_compute in b in
        change (a' <= b')%nat
    end; try lia; exfalso; lra.
Qed.

Lemma grade_is_a_label x : In (calculate_overall_grade x) grade_labels.
Proof. thresholds; simpl; tauto. Qed.

Lemma grade_respects_equality x y :
  x == y -> calculate_overall_grade x = calculate_overall_grade y.
Proof.
  intros E. unfold calculate_overall_grade.
  assert (T : forall c, Qle_bool c x = Qle_bool c y)
    by (intros c; apply Qleb_comp; [reflexivity | exact E]).
  now rewrite !T.
Qed.

(** C2. The overall grade is a total, deterministic and monotone function
    of the final composite: the ladder of inclusive lower bounds 8, 7, 6,
    5, 4, 3 read top-down gives "Excellent", "Very Good", "Good Plus",
    "Good", "Average", "Fair" and "Poor" below 3; the six bounds
    themselves map to the first six labels; every composite, in [1, 9] or
    not, gets exactly one label of the ladder, numerically equal composites
    get the same label, and a larger composite never gets a lower label. *)
Theorem overall_grade_ladder : forall x y : Q,
  (8 <= x -> calculate_overall_grade x = "Excellent"%string) /\
  (7 <= x -> x < 8 -> calculate_overall_grade x = "Very Good"%string) /\
  (6 <= x -> x < 7 -> calculate_overall_grade x = "Good Plus"%string) /\
  (5 <= x -> x < 6 -> calculate_overall_grade x = "Good"%string) /\
  (4 <= x -> x < 5 -> calculate_overall_grade x = "Average"%string) /\
  (3 <= x -> x < 4 -> calculate_overall_grade x = "Fair"%string) /\
  (x < 3 -> calculate_overall_grade x = "Poor"%string) /\
  map calculate_overall_grade [8; 7; 6; 5; 4; 3]
    = [ "Excellent"; "Very Good"; "Good Plus"; "Good"; "Average"; "Fair" ]%string /\
  In (calculate_overall_grade x) grade_labels /\
  (x == y -> calculate_overall_grade x = calculate_overall_grade y) /\
  (x <= y ->
   (grade_rank (calculate_overall_grade x)
    <= grade_rank (calculate_overall_grade y))%nat).
Proof.
  intros x y.
  repeat split.
  - apply grade_excellent.
  - apply grade_very_good.
  - apply grade_good_plus.
  - apply grade_good.
  - apply grade_average.
  - apply grade_fair.
  - apply grade_poor.
  - apply grade_is_a_label.
  - apply grade_respects_equality.
  - apply grade_monotone.
Qed.

End GradeFacts.

(* ------------------------------------------------------------------ *)
(** ** Dicts *)

Module DictFacts.
Section Facts.
Context {K V : Type} `{KeyEq K}.

Lemma keqb_refl (k : K) : keqb k k = true.
Proof. destruct (keqb_spec k k); congruence. Qed.

Lemma keqb_neq (a b : K) : a <> b -> keqb a b = false.
Proof. intros N. destruct (keqb_spec a b); congruence. Qed.

Lemma get_In (d : Dict.t K V) (k : K) (v : V) :
  Dict.get d k = Some v -> In (k, v) d.
Proof.
  induction d as [|[k' v'] d IH]; simpl; [discriminate|].
  destruct (keqb_spec k' k) as [->|_].
  - intros [= ->]. now left.
  - intros G. right. auto.
Qed.

Lemma set_fresh (d : Dict.t K V) (k : K) (v : V) :
  ~ In k (Dict.keys d) -> Dict.set d k v = d ++ [(k, v)].
Proof.
  induction d as [|[k' v'] d IH]; simpl; intros N; [reflexivity|].
  rewrite keqb_neq by tauto.
  rewrite IH by tauto. reflexivity.
Qed.

Lemma keys_app (d e : Dict.t K V) :
  Dict.keys (d ++ e) = Dict.keys d ++ Dict.keys e.
Proof. unfold Dict.keys. apply map_app. Qed.

(** Storing the items of a dict one by one rebuilds it. *)
Lemma fold_set_wf (e d : Dict.t K V) :
  Dict.wf (d ++ e) ->
  fold_left (fun out item => Dict.set out (fst item) (snd item)) e d = d ++ e.
Proof.
  revert d. induction e as [|[k v] e IH]; intros d W; simpl.
  - now rewrite app_nil_r.
  - assert (F : ~ In k (Dict.keys d)).
    { unfold Dict.wf in W. rewrite keys_app in W. simpl in W.
      apply NoDup_remove_2 in W. rewrite in_app_iff in W. tauto. }
    rewrite set_fresh by exact F.
    rewrite IH; rewrite <- app_assoc; simpl; [reflexivity | exact W].
Qed.

End Facts.
End DictFacts.

(* ------------------------------------------------------------------ *)
(** ** The score interpreter *)

Module InterpreterFacts.
Import ATCScorer Spec.
Local Open Scope string_scope.

(** Every table of [descriptions] has the three anchors 1, 5 and 9. *)
Lemma descriptions_anchors (trait_id : string) (trait_desc : Dict.t Z string) :
  Dict.get descriptions trait_id = Some trait_desc ->
  exists low mid high, trait_desc = anchors low mid high.
Proof.
  intros G. apply DictFacts.get_In in G.
  unfold descriptions in G. simpl in G.
  repeat (destruct G as [G|G]; [inversion G; eauto|]).
  contradiction.
Qed.

Lemma known_trait_description trait_id low mid high (score : Z) :
  Dict.get descriptions trait_id = Some (anchors low mid high) ->
  get_score_description trait_id score
  = Some (interpretation low mid high score).
Proof.
  intros G. unfold get_score_description, interpretation. rewrite G.
  cbv [Dict.mem anchors Dict.get keqb Z_KeyEq bind].
  rewrite !(Z.eqb_sym _ score).
  destruct (score =? 1)%Z; [reflexivity|].
  destruct (score =? 5)%Z; [reflexivity|].
  destruct (score =? 9)%Z; [reflexivity|].
  destruct (score <? 5)%Z; reflexivity.
Qed.

Lemma get_score_description_total trait_id (score : Z) :
  exists text, get_score_description trait_id score = Some text.
Proof.
  destruct (Dict.get descriptions trait_id) as [trait_desc|] eqn:G.
  - destruct (descriptions_anchors _ _ G) as (low & mid & high & ->).
    exists (interpretation low mid high score).
    now apply known_trait_description.
  - unfold get_score_description. rewrite G. eauto.
Qed.

(** C8. [get_score_description] returns a text for every trait identifier
    and every integer score, so in particular for the scores 1 to 9.  An
    identifier outside the table gives "Score: " followed by the score.
    An identifier of the table has the three anchor texts for 1, 5 and 9,
    and gives the anchor text itself on 1, 5 and 9, the "Below average"
    text built from the anchors of 1 and 5 on a score below 5, and the
    "Above average" text built from the anchors of 5 and 9 otherwise. *)
Theorem score_description_cases : forall (trait_id : string) (score : Z),
  match Dict.get descriptions trait_id with
  | None =>
      get_score_description trait_id score
      = Some ("Score: " ++ PyStr.str_of_int score)
  | Some trait_desc =>
      exists low mid high,
        Dict.get trait_desc 1%Z = Some low /\
        Dict.get trait_desc 5%Z = Some mid /\
        Dict.get trait_desc 9%Z = Some high /\
        get_score_description trait_id score
        = Some (if (score =? 1)%Z then low
                else if (score =? 5)%Z then mid
                else if (score =? 9)%Z then high
                else if (score <? 5)%Z
                     then "Below average (" ++ low ++ " to " ++ mid ++ ")"
                     else "Above average (" ++ mid ++ " to " ++ high ++ ")")
  end.
Proof.
  intros trait_id score.
  destruct (Dict.get descriptions trait_id) as [trait_desc|] eqn:G.
  - destruct (descriptions_anchors _ _ G) as (low & mid & high & ->).
    exists low, mid, high. repeat split.
    exact (known_trait_description _ _ _ _ score G).
  - unfold get_score_description. now rewrite G.
Qed.

Example rump_angle_3 :
  get_score_description "rump_angle" 3
  = Some "Below average (Pins very high (level) to Moderate slope)".
Proof. reflexivity. Qed.

Example rump_angle_9 :
  get_score_description "rump_angle" 9 = Some "Pins very low (steep)".
Proof. reflexivity. Qed.

Example unknown_trait_7 :
  get_score_description "horn_shape" 7 = Some "Score: 7".
Proof. reflexivity. Qed.

End InterpreterFacts.

(* ------------------------------------------------------------------ *)
(** ** The report builder and the export *)

Module ReportFacts.
Import GeminiAnalyzer ATCScorer Spec.
Local Open Scope string_scope.

Lemma format_one_total trait_defs (item : string * trait_data) :
  exists entry,
    format_one trait_defs item = Some entry /\
    Formatted.trait_id entry = fst item /\
    Formatted.score entry = data_score (snd item).
Proof.
  destruct item as [trait_id data]. unfold format_one.
  set (sn := match data with
             | DictEntry e => (get_score e, get_default (entry_notes e) EmptyString)
             | BareEntry v => (v, EmptyString)
             end).
  assert (S : fst sn = data_score data) by (destruct data; reflexivity).
  destruct sn as [score notes]. simpl in S. subst score.
  destruct (match Dict.get trait_defs trait_id with
            | Some trait_def => (Trait.name trait_def, Trait.description trait_def)
            | None => (trait_id, EmptyString)
            end) as [trait_name description].
  assert (D : exists text,
             match data_score data with
             | Some z => if score_truthy (data_score data)
                         then get_score_description trait_id z
                         else Some "Not assessed"
             | None => Some "Not assessed"
             end = Some text).
  { destruct (data_score data) as [z|]; [|eauto].
    destruct (score_truthy (Some z)); [|eauto].
    apply InterpreterFacts.get_score_description_total. }
  destruct D as [text ->]. simpl. eauto.
Qed.

(** The loop of [_format_scores], from any list built so far. *)
Lemma format_loop trait_defs (scores : Dict.t string trait_data)
    (done : list Formatted.t) :
  exists rest,
    fold_left
      (fun formatted item =>
         acc <- formatted ;;
         entry <- format_one trait_defs item ;;
         Some (acc ++ [entry])%list)
      scores (Some done) = Some (done ++ rest)%list /\
    map (fun f => (Formatted.trait_id f, Formatted.score f)) rest
    = score_pairs scores.
Proof.
  revert done. induction scores as [|item scores IH]; intros done; simpl.
  - exists []. now rewrite app_nil_r.
  - destruct (format_one_total trait_defs item) as (entry & -> & I & S).
    simpl. destruct (IH (done ++ [entry])%list) as (rest & -> & M).
    exists (entry :: rest). split.
    + now rewrite <- app_assoc.
    + simpl. now rewrite I, S, M.
Qed.

Lemma format_scores_total (scores : Dict.t string trait_data) category :
  exists formatted,
    _format_scores scores category = Some formatted /\
    map (fun f => (Formatted.trait_id f, Formatted.score f)) formatted
    = score_pairs scores.
Proof.
  unfold _format_scores.
  destruct (format_loop
              (index_by_id (get_default (Dict.get traits category) []))
              scores []) as (rest & E & M).
  exists rest. split; [exact E | exact M].
Qed.

Lemma flatten_scores_as_pairs (xs : list Formatted.t) :
  flatten_scores xs
  = fold_left (fun out item => Dict.set out (fst item) (snd item))
      (map (fun f => (Formatted.trait_id f, Formatted.score f)) xs)
      Dict.empty.
Proof.
  unfold flatten_scores. generalize (@Dict.empty string (option Z)).
  induction xs as [|x xs IH]; intros d; simpl; [reflexivity | apply IH].
Qed.

Lemma keys_score_pairs (scores : Dict.t string trait_data) :
  Dict.keys (score_pairs scores) = Dict.keys scores.
Proof.
  unfold Dict.keys, score_pairs. rewrite map_map. reflexivity.
Qed.

(** Flattening the formatted list of a score map gives back its pairs. *)
Lemma flatten_format (scores : Dict.t string trait_data) category formatted :
  Dict.wf scores ->
  _format_scores scores category = Some formatted ->
  flatten_scores formatted = score_pairs scores.
Proof.
  intros W F.
  destruct (format_scores_total scores category) as (formatted' & F' & M).
  rewrite F in F'. injection F' as <-.
  rewrite flatten_scores_as_pairs, M.
  apply (DictFacts.fold_set_wf (score_pairs scores) []).
  simpl. unfold Dict.wf. now rewrite keys_score_pairs.
Qed.

(** [format_report] always builds a report, with these fields. *)
Lemma format_report_total now_id now_iso (p : payload) :
  exists structural udder,
    _format_scores (structural_of p) "structural" = Some structural /\
    _format_scores (udder_of p) "udder" = Some udder /\
    format_report now_id now_iso p = Some {|
      Report.report_id := now_id;
      Report.generated_at := now_iso;
      Report.animal_info := {|
        AnimalInfo.type := get_default (animal_type p) "unknown";
        AnimalInfo.breed := get_default (breed_guess p) "unknown";
        AnimalInfo.sex := get_default (sex p) "unknown" |};
      Report.image_assessment := {|
        ImageAssessment.quality := get_default (image_quality p) "fair";
        ImageAssessment.angle := get_default (image_angle p) "unknown";
        ImageAssessment.body_parts_visible :=
          get_default (body_parts_visible p) Dict.empty |};
      Report.scores := {| Scores.structural := structural; Scores.udder := udder |};
      Report.composites := payload_composites p;
      Report.overall_grade :=
        calculate_overall_grade
          (match payload_composites p with
           | Some c => final_composite c
           | None => 5%Q
           end);
      Report.assessment := get_default (overall_assessment p) EmptyString;
      Report.recommendations := get_default (recommendations p) []
    |}.
Proof.
  destruct (format_scores_total (structural_of p) "structural") as (s & Fs & _).
  destruct (format_scores_total (udder_of p) "udder") as (u & Fu & _).
  exists s, u. repeat split; try assumption.
  unfold format_report. fold (structural_of p) (udder_of p).
  rewrite Fs, Fu. reflexivity.
Qed.

(** Computing the composites after the defaults are filled in is computing
    them on the payload as received. *)
Lemma composites_after_defaults (p : payload) :
  payload_composites (_validate_result p)
  = Some (_calculate_composite_scores p).
Proof.
  destruct p as [? ? ? ? ? ? ? structural udder ? ? ? ?].
  destruct structural, udder; reflexivity.
Qed.

Lemma composites_ignore_validation (p : payload) :
  _calculate_composite_scores (_validate_result p)
  = _calculate_composite_scores p.
Proof.
  destruct p as [? ? ? ? ? ? ? structural udder ? ? ? ?].
  destruct structural, udder; reflexivity.
Qed.

(** C5. For every raw payload (a dict has pairwise distinct keys), the
    report built from it exists, and exporting that report yields
    structural and udder score maps that are exactly the trait -> score
    pairs of the payload's two score maps: the same keys in the same order
    with the same scores, [null] scores included; descriptions and notes
    are dropped. *)
Theorem export_reproduces_scores :
  forall (now_id now_iso : string) (p : payload),
    Dict.wf (structural_of p) ->
    Dict.wf (udder_of p) ->
    exists report,
      format_report now_id now_iso p = Some report /\
      BpaExport.structural_scores (export_for_bpa report)
      = score_pairs (structural_of p) /\
      BpaExport.udder_scores (export_for_bpa report)
      = score_pairs (udder_of p).
Proof.
  intros now_id now_iso p Ws Wu.
  destruct (format_report_total now_id now_iso p) as (s & u & Fs & Fu & R).
  eexists. split; [exact R|]. simpl. split.
  - exact (flatten_format _ _ _ Ws Fs).
  - exact (flatten_format _ _ _ Wu Fu).
Qed.

(** A payload with a scored trait, a [null] score, an entry without the
    ["score"] key and a bare score. *)
Lemma export_reproduces_scores_witness :
  let p :=
    payload_of_scores
      [ ("stature", entry 7);
        ("chest_width",
         DictEntry {| entry_score := Some None; entry_notes := Some "hidden" |});
        ("rump_angle",
         DictEntry {| entry_score := None; entry_notes := None |}) ]
      [ ("fore_udder", BareEntry (Some 4)) ] in
  exists report,
    format_report "20240101120000" "2024-01-01T12:00:00" p = Some report /\
    BpaExport.structural_scores (export_for_bpa report)
    = [ ("stature", Some 7%Z); ("chest_width", None); ("rump_angle", None) ] /\
    BpaExport.udder_scores (export_for_bpa report)
    = [ ("fore_udder", Some 4%Z) ].
Proof.
  intros p.
  apply (export_reproduces_scores "20240101120000" "2024-01-01T12:00:00" p).
  - unfold Dict.wf. simpl.
    repeat (constructor; [simpl; intuition discriminate|]). constructor.
  - unfold Dict.wf. simpl.
    repeat (constructor; [simpl; intuition discriminate|]). constructor.
Defined.

(** C6.  The composite set is computed where the analyzer validates the raw
    payload ([_validate_result], line 171), and [format_report], which the
    application calls on that validated result only, copies the set stored
    under ["composite_scores"] and grades the final composite of that set
    (first part).  So for every raw payload the report embeds the composite
    calculator's result for that same payload, which is also its result for
    the validated payload, and the overall grade of the report is the grade
    ladder applied to that computed final composite (second part). *)
Theorem report_embeds_validated_composites :
  forall (now_id now_iso : string) (p : payload),
    (exists report,
       format_report now_id now_iso p = Some report /\
       Report.composites report = payload_composites p /\
       Report.overall_grade report
       = calculate_overall_grade
           (match payload_composites p with
            | Some c => final_composite c
            | None => 5%Q
            end)) /\
    (exists report,
       format_report now_id now_iso (_validate_result p) = Some report /\
       Report.composites report = Some (_calculate_composite_scores p) /\
       _calculate_composite_scores (_validate_result p)
       = _calculate_composite_scores p /\
       Report.overall_grade report
       = calculate_overall_grade
           (final_composite (_calculate_composite_scores p))).
Proof.
  intros now_id now_iso p. split.
  - destruct (format_report_total now_id now_iso p) as (s & u & _ & _ & R).
    eexists. split; [exact R|]. split; reflexivity.
  - destruct (format_report_total now_id now_iso (_validate_result p))
      as (s & u & _ & _ & R).
    eexists. split; [exact R|].
    cbn [Report.composites Report.overall_grade].
    rewrite composites_after_defaults, composites_ignore_validation.
    repeat split.
Qed.

(** C7, as the claim states it, fails: the payload [{}] has no
    ["image_quality"], and the quality in its report is "fair", not
    "unknown". *)
Lemma missing_quality_defaults_to_fair :
  let p := payload_of_scores [] [] in
  exists report,
    format_report "20240101120000" "2024-01-01T12:00:00" p = Some report /\
    image_quality p = None /\
    ImageAssessment.quality (Report.image_assessment report) = "fair" /\
    ImageAssessment.quality (Report.image_assessment report) <> "unknown".
Proof.
  intros p. eexists. split; [reflexivity|].
  repeat split. discriminate.
Qed.

(** C7, amended.  [format_report] copies type, breed and sex of the animal
    and quality and angle of the image from the payload when the key is
    there; a missing type, breed, sex or angle becomes "unknown" and a
    missing quality becomes "fair". *)
Theorem report_copies_metadata :
  forall (now_id now_iso : string) (p : payload),
    exists report,
      format_report now_id now_iso p = Some report /\
      copied_or "unknown" (animal_type p)
        (AnimalInfo.type (Report.animal_info report)) /\
      copied_or "unknown" (breed_guess p)
        (AnimalInfo.breed (Report.animal_info report)) /\
      copied_or "unknown" (sex p)
        (AnimalInfo.sex (Report.animal_info report)) /\
      copied_or "fair" (image_quality p)
        (ImageAssessment.quality (Report.image_assessment report)) /\
      copied_or "unknown" (image_angle p)
        (ImageAssessment.angle (Report.image_assessment report)).
Proof.
  intros now_id now_iso p.
  destruct (format_report_total now_id now_iso p) as (s & u & _ & _ & R).
  eexists. split; [exact R|]. simpl. unfold copied_or.
  destruct (animal_type p), (breed_guess p), (sex p),
    (image_quality p), (image_angle p); repeat split.
Qed.

End ReportFacts.

(* ------------------------------------------------------------------ *)
(** ** The parsing boundary *)

Module ParseFacts.
Import GeminiAnalyzer Spec.
Local Open Scope string_scope.

Section Decoder.
Variable json_loads : decoder.

(** A text that does not decode gives the error response, which carries
    the text exactly as received. *)
Lemma undecodable_gives_error_response (response_text e : string) :
  json_loads (clean response_text) = inr e ->
  _parse_response json_loads response_text
  = Returns (ErrorResponse ("Failed to parse AI response: " ++ e) response_text).
Proof. intros D. unfold _parse_response. now rewrite D. Qed.

(** A text that decodes to an object gives the validated result. *)
Lemma object_gives_structured (response_text : string) (o : payload) :
  json_loads (clean response_text) = inl (JObject o) ->
  _parse_response json_loads response_text
  = Returns (Structured (_validate_result o)).
Proof. intros D. unfold _parse_response. now rewrite D. Qed.

(** The error response is returned only for a text that does not decode. *)
Lemma error_response_only_if_undecodable (response_text message raw : string) :
  _parse_response json_loads response_text
  = Returns (ErrorResponse message raw) ->
  exists e, json_loads (clean response_text) = inr e /\ raw = response_text.
Proof.
  unfold _parse_response.
  destruct (json_loads (clean response_text)) as [[o|k]|e]; try discriminate.
  intros [= _ <-]. eauto.
Qed.

End Decoder.

(** C9, on the failing input.  When the cleaned text decodes to a JSON
    value that is not an object, as the text [[]] does, [_parse_response]
    returns neither the error response carrying the raw text nor a
    structured result: the exception of using the value as a dict leaves
    the function. *)
Theorem non_object_escapes_error_handling :
  forall (json_loads : decoder) (response_text : string) (k : json_kind),
    json_loads (clean response_text) = inl (JOther k) ->
    _parse_response json_loads response_text = Raises_not_a_dict /\
    (forall message raw,
        _parse_response json_loads response_text
        <> Returns (ErrorResponse message raw)) /\
    (forall result,
        _parse_response json_loads response_text
        <> Returns (Structured result)).
Proof.
  intros json_loads response_text k D.
  unfold _parse_response. rewrite D.
  repeat split; intros; discriminate.
Qed.

Lemma non_object_escapes_error_handling_witness :
  clean "```json
[]
```" = "[]" /\
  _parse_response array_decoder "```json
[]
```" = Raises_not_a_dict.
Proof.
  split; [reflexivity|].
  apply (non_object_escapes_error_handling array_decoder _ JArray).
  reflexivity.
Defined.

End ParseFacts.

(* ------------------------------------------------------------------ *)
(** ** The composite calculator: which scores it uses *)

Module CompositeFacts.
Import PyFloat GeminiAnalyzer Spec.

Lemma collect_loop (scores : Dict.t string trait_data) (out : list Z) :
  fold_left collect_step scores out = out ++ present_scores scores.
Proof.
  revert out. induction scores as [|[trait data] scores IH]; intros out; simpl.
  - now rewrite app_nil_r.
  - rewrite IH. unfold collect_step, scored, get_score. simpl.
    destruct data as [[[[z|]|] notes]|v]; simpl;
      try reflexivity.
    now rewrite <- app_assoc.
Qed.

(** The loop collects exactly the present scores. *)
Lemma collect_scores_present (scores : Dict.t string trait_data) :
  collect_scores scores = present_scores scores.
Proof. apply (collect_loop scores []). Qed.

Lemma py_sum_from (xs : list Z) (a : Z) :
  fold_left Z.add xs a = (a + fold_right Z.add 0 xs)%Z.
Proof.
  revert a. induction xs as [|x xs IH]; intros a; simpl.
  - lia.
  - rewrite IH. lia.
Qed.

Lemma average_mean (xs : list Z) : average xs = mean xs.
Proof.
  unfold average, mean, py_sum. now rewrite py_sum_from.
Qed.

(** Entries without a present score do not count. *)
Lemma present_scores_filter (scores : Dict.t string trait_data) :
  present_scores (filter is_scored scores) = present_scores scores.
Proof.
  induction scores as [|[trait data] scores IH]; [reflexivity|].
  cbn [filter present_scores]. unfold is_scored at 1. cbn [snd].
  destruct (scored data) eqn:E; cbn [present_scores]; rewrite ?E, IH;
    reflexivity.
Qed.

(** The composite set in terms of the present scores. *)
Lemma composites_unfold (p : payload) :
  _calculate_composite_scores p =
  let ss := present_scores (structural_of p) in
  let us := present_scores (udder_of p) in
  {| structural_composite := py_round2 (mean_or 5 ss);
     udder_composite :=
       match us with
       | [] => None
       | _ :: _ => if truthy (mean us) then Some (py_round2 (mean us)) else None
       end;
     final_composite :=
       py_round2
         (match us with
          | [] => mean_or 5 ss
          | _ :: _ => fadd (fmul (mean_or 5 ss) c06) (fmul (mean us) c04)
          end) |}.
Proof.
  unfold _calculate_composite_scores.
  fold (structural_of p) (udder_of p).
  rewrite !collect_scores_present.
  destruct (present_scores (structural_of p)) as [|s ss];
    destruct (present_scores (udder_of p)) as [|u us];
    cbv zeta; unfold mean_or; rewrite ?average_mean; reflexivity.
Qed.

Lemma round2_of_5 : py_round2 5 = 5%Q.
Proof. vm_compute. reflexivity. Qed.

(** C3. For every raw payload the structural composite is the arithmetic
    mean of the present structural scores (their sum divided by their
    count) rounded to two decimals by [round(., 2)], and it is 5 when no
    structural score is present.  Entries that are not a dict,
    that have no ["score"] key or whose score is [null] do not take part:
    the composite is the same with those entries removed. *)
Theorem structural_composite_is_rounded_mean : forall (p : payload),
  let scores := present_scores (structural_of p) in
  (scores <> [] ->
   structural_composite (_calculate_composite_scores p)
   = py_round2 (mean scores)) /\
  (scores = [] ->
   structural_composite (_calculate_composite_scores p) = 5%Q) /\
  present_scores (filter is_scored (structural_of p)) = scores /\
  structural_composite
    (_calculate_composite_scores
       (payload_of_scores (filter is_scored (structural_of p)) (udder_of p)))
  = structural_composite (_calculate_composite_scores p).
Proof.
  intros p scores. rewrite !composites_unfold. cbv zeta.
  cbn [structural_composite].
  change (structural_of (payload_of_scores _ _))
    with (filter is_scored (structural_of p)).
  rewrite present_scores_filter. fold scores.
  repeat split.
  - intros N. destruct scores; [congruence | reflexivity].
  - intros ->. apply round2_of_5.
Qed.




(** Without a present udder score the udder composite is absent and the
    final composite is the structural composite. *)
Lemma no_udder_score (p : payload) :
  present_scores (udder_of p) = [] ->
  udder_composite (_calculate_composite_scores p) = None /\
  final_composite (_calculate_composite_scores p)
  = structural_composite (_calculate_composite_scores p).
Proof.
  intros E. rewrite composites_unfold. cbv zeta. rewrite E. split; reflexivity.
Qed.

(** With a present udder score whose mean is not zero, the udder composite
    is that mean rounded to two decimals. *)
Lemma udder_composite_of_nonzero_mean (p : payload) :
  present_scores (udder_of p) <> [] ->
  truthy (mean (present_scores (udder_of p))) = true ->
  udder_composite (_calculate_composite_scores p)
  = Some (py_round2 (mean (present_scores (udder_of p)))).
Proof.
  intros N T. rewrite composites_unfold. cbv zeta. cbn [udder_composite].
  destruct (present_scores (udder_of p)); [congruence|].
  now rewrite T.
Qed.

(** C4, on the failing input.  The payload whose only score is a fore udder
    score of 0 has a present udder score, and the mean of its udder
    scores rounded to two decimals is 0; the udder composite is absent all
    the same, while the final composite is the blend 0.6 * 5 + 0.4 * 0 = 3
    and not the structural composite 5. *)
Theorem zero_udder_mean_reported_absent :
  let p := payload_of_scores [] [ ("fore_udder", entry 0) ]%string in
  let c := _calculate_composite_scores p in
  present_scores (udder_of p) = [0%Z] /\
  py_round2 (mean (present_scores (udder_of p))) = 0%Q /\
  udder_composite c = None /\
  structural_composite c = 5%Q /\
  final_composite c = 3%Q.
Proof.
  intros p c. repeat split; vm_compute; reflexivity.
Qed.

End CompositeFacts.

(* ------------------------------------------------------------------ *)
(** ** The composite calculator: the range of its results *)

Module RangeFacts.
Import PyFloat GeminiAnalyzer Spec FloatFacts CompositeFacts.
Local Open Scope Q_scope.

Lemma rnd64_1 : rnd64 1 = 1.
Proof. vm_compute. reflexivity. Qed.

Lemma rnd64_9 : rnd64 9 = 9.
Proof. vm_compute. reflexivity. Qed.

(** Rounding to binary64 keeps a number of [1, 9] in [1, 9]. *)
Lemma rnd64_range (x : Q) : 1 <= x <= 9 -> 1 <= rnd64 x <= 9.
Proof.
  intros [L U]. split.
  - rewrite <- rnd64_1. apply rnd64_mono; lra.
  - rewrite <- rnd64_9. apply rnd64_mono; lra.
Qed.

Lemma py_round2_range (x : Q) : 1 <= x <= 9 -> 1 <= py_round2 x <= 9.
Proof.
  intros [L U]. unfold py_round2. apply rnd64_range.
  assert (Lr : (100 <= round_half_even (x * 100))%Z).
  { pose proof (round_half_even_mono (inject_Z 100) (x * 100)) as M.
    rewrite round_half_even_Z in M. apply M.
    change (inject_Z 100) with 100. lra. }
  assert (Ur : (round_half_even (x * 100) <= 900)%Z).
  { pose proof (round_half_even_mono (x * 100) (inject_Z 900)) as M.
    rewrite round_half_even_Z in M. apply M.
    change (inject_Z 900) with 900. lra. }
  rewrite Zle_Qle in Lr, Ur.
  change (inject_Z 100) with 100 in Lr. change (inject_Z 900) with 900 in Ur.
  set (r := inject_Z (round_half_even (x * 100))) in *. clearbody r.
  split.
  - apply Qle_shift_div_l; lra.
  - apply Qle_shift_div_r; lra.
Qed.

Lemma c06_pos : 0 < c06.
Proof. vm_compute. reflexivity. Qed.

Lemma c04_pos : 0 < c04.
Proof. vm_compute. reflexivity. Qed.

Lemma blend_of_ones : rnd64 (rnd64 (1 * c06) + rnd64 (1 * c04)) = 1.
Proof. vm_compute. reflexivity. Qed.

Lemma blend_of_nines : rnd64 (rnd64 (9 * c06) + rnd64 (9 * c04)) = 9.
Proof. vm_compute. reflexivity. Qed.

Lemma low_parts_pos : 0 < rnd64 (1 * c06) /\ 0 < rnd64 (1 * c04).
Proof. split; vm_compute; reflexivity. Qed.

(** The blend of two numbers of [1, 9] is in [1, 9]. *)
Lemma blend_range (s u : Q) :
  1 <= s <= 9 -> 1 <= u <= 9 ->
  1 <= fadd (fmul s c06) (fmul u c04) <= 9.
Proof.
  intros [Ls Us] [Lu Uu].
  pose proof c06_pos as P6. pose proof c04_pos as P4.
  destruct low_parts_pos as [Q6 Q4].
  assert (A1 : rnd64 (1 * c06) <= fmul s c06).
  { apply rnd64_mono; [lra|]. apply Qmult_le_compat_r; lra. }
  assert (A9 : fmul s c06 <= rnd64 (9 * c06)).
  { apply rnd64_mono.
    - apply Qlt_le_trans with (1 * c06); [lra|].
      apply Qmult_le_compat_r; lra.
    - apply Qmult_le_compat_r; lra. }
  assert (B1 : rnd64 (1 * c04) <= fmul u c04).
  { apply rnd64_mono; [lra|]. apply Qmult_le_compat_r; lra. }
  assert (B9 : fmul u c04 <= rnd64 (9 * c04)).
  { apply rnd64_mono.
    - apply Qlt_le_trans with (1 * c04); [lra|].
      apply Qmult_le_compat_r; lra.
    - apply Qmult_le_compat_r; lra. }
  unfold fadd at 1 2.
  set (a := fmul s c06) in *. set (b := fmul u c04) in *.
  set (a1 := rnd64 (1 * c06)) in *. set (b1 := rnd64 (1 * c04)) in *.
  set (a9 := rnd64 (9 * c06)) in *. set (b9 := rnd64 (9 * c04)) in *.
  split.
  - rewrite <- blend_of_ones. fold a1 b1. apply rnd64_mono; lra.
  - rewrite <- blend_of_nines. fold a9 b9. apply rnd64_mono; lra.
Qed.

(** Scores in [1, 9] have their sum between the count and nine times the
    count. *)
Lemma sum_of_valid (xs : list Z) :
  Forall (fun z => ATCScorer.validate_score (Some z) = true) xs ->
  (Z.of_nat (List.length xs) <= fold_right Z.add 0 xs
   <= 9 * Z.of_nat (List.length xs))%Z.
Proof.
  induction 1 as [|z xs V _ IH]; [simpl; lia|].
  unfold ATCScorer.validate_score, ATCScorer.score_min, ATCScorer.score_max,
    Config.SCORE_MIN, Config.SCORE_MAX in V.
  apply andb_true_iff in V. destruct V as [V1 V2].
  apply Z.leb_le in V1, V2.
  cbn [fold_right List.length]. lia.
Qed.

Lemma mean_range (xs : list Z) :
  xs <> [] ->
  Forall (fun z => ATCScorer.validate_score (Some z) = true) xs ->
  1 <= mean xs <= 9.
Proof.
  intros N V. pose proof (sum_of_valid xs V) as [L U].
  unfold mean, truediv. apply rnd64_range.
  set (n := Z.of_nat (List.length xs)) in *.
  assert (Pn : (0 < n)%Z) by (destruct xs; [congruence | subst n; simpl; lia]).
  set (a := fold_right Z.add 0%Z xs) in *. clearbody a n.
  rewrite Zle_Qle in L, U. rewrite inject_Z_mult in U.
  assert (Qn : 0 < inject_Z n) by (rewrite <- (Zlt_Qlt 0); exact Pn).
  change (inject_Z 9) with 9 in U.
  set (qa := inject_Z a) in *. set (qn := inject_Z n) in *. clearbody qa qn.
  split.
  - apply Qle_shift_div_l; lra.
  - apply Qle_shift_div_r; lra.
Qed.

Lemma mean_or_range (xs : list Z) :
  Forall (fun z => ATCScorer.validate_score (Some z) = true) xs ->
  1 <= mean_or 5 xs <= 9.
Proof.
  intros V. destruct xs as [|x xs].
  - simpl. lra.
  - apply mean_range; [discriminate | exact V].
Qed.

(** With present udder scores that all lie in [1, 9], the udder composite
    is their mean rounded to two decimals. *)
Lemma udder_composite_of_valid_scores (p : payload) :
  present_scores (udder_of p) <> [] ->
  scores_valid (udder_of p) ->
  udder_composite (_calculate_composite_scores p)
  = Some (py_round2 (mean (present_scores (udder_of p)))).
Proof.
  intros N V. apply udder_composite_of_nonzero_mean; [exact N|].
  destruct (mean_range _ N V) as [L _].
  unfold truthy. destruct (Qeq_bool _ 0) eqn:E; [|reflexivity].
  apply Qeq_bool_iff in E. lra.
Qed.

(** C10. For every raw payload whose present structural and udder scores
    all lie in [1, 9], the structural composite and the final composite lie
    in [1, 9], and so does the udder composite whenever it is defined. *)
Theorem composites_within_score_range : forall (p : payload),
  scores_valid (structural_of p) ->
  scores_valid (udder_of p) ->
  let c := _calculate_composite_scores p in
  1 <= structural_composite c <= 9 /\
  1 <= final_composite c <= 9 /\
  (forall u, udder_composite c = Some u -> 1 <= u <= 9).
Proof.
  intros p Vs Vu c. subst c. rewrite composites_unfold. cbv zeta.
  cbn [structural_composite final_composite udder_composite].
  unfold scores_valid in Vs, Vu.
  pose proof (mean_or_range _ Vs) as Rs.
  set (ss := present_scores (structural_of p)) in *.
  destruct (present_scores (udder_of p)) as [|u0 us] eqn:Eu.
  - repeat split; try apply py_round2_range; try exact Rs; discriminate.
  - assert (Ru : 1 <= mean (u0 :: us) <= 9)
      by (apply mean_range; [discriminate | exact Vu]).
    split; [apply py_round2_range, Rs|].
    split; [apply py_round2_range, blend_range; assumption|].
    intros u. destruct (truthy (mean (u0 :: us))); [|discriminate].
    intros [= <-]. apply py_round2_range, Ru.
Qed.

Lemma composites_within_score_range_witness :
  let c :=
    _calculate_composite_scores
      (payload_of_scores
         [ ("stature", entry 9); ("chest_width", entry 8) ]%string
         [ ("fore_udder", entry 1) ]%string) in
  1 <= structural_composite c <= 9 /\
  1 <= final_composite c <= 9 /\
  (forall u, udder_composite c = Some u -> 1 <= u <= 9).
Proof.
  apply composites_within_score_range;
    unfold scores_valid; simpl; repeat constructor.
Defined.

End RangeFacts.

(* ------------------------------------------------------------------ *)
(** ** The composite calculator: what its results depend on *)

Module CalculatorFacts.
Import PyFloat GeminiAnalyzer ATCScorer Spec FloatFacts CompositeFacts RangeFacts.
Local Open Scope Q_scope.

Lemma sum_permutation (xs ys : list Z) :
  Permutation xs ys -> fold_right Z.add 0%Z xs = fold_right Z.add 0%Z ys.
Proof.
  induction 1; simpl; lia.
Qed.

Lemma mean_permutation (xs ys : list Z) :
  Permutation xs ys -> mean xs = mean ys.
Proof.
  intros P. unfold mean.
  now rewrite (sum_permutation _ _ P), (Permutation_length P).
Qed.

(** The composite set as a function of the two lists of present scores. *)
Lemma composites_of_present (p q : payload) :
  mean_or 5 (present_scores (structural_of p))
  = mean_or 5 (present_scores (structural_of q)) ->
  match present_scores (udder_of p) with
  | [] => None
  | us => Some (mean us)
  end
  = match present_scores (udder_of q) with
    | [] => None
    | us => Some (mean us)
    end ->
  _calculate_composite_scores p = _calculate_composite_scores q.
Proof.
  intros S U. rewrite !composites_unfold. cbv zeta. rewrite S.
  destruct (present_scores (udder_of p)) as [|u us];
    destruct (present_scores (udder_of q)) as [|v vs];
    try discriminate; [reflexivity|].
  injection U as ->. reflexivity.
Qed.

(** X1. The composite set depends only on which present scores each
    category holds: two payloads whose present structural scores are a
    rearrangement of each other, and likewise their present udder scores,
    get the same three composites, whatever the trait identifiers, the
    notes, the order of the traits and the entries without a score. *)
Theorem composites_permutation_invariant : forall (p q : payload),
  Permutation (present_scores (structural_of p))
              (present_scores (structural_of q)) ->
  Permutation (present_scores (udder_of p))
              (present_scores (udder_of q)) ->
  _calculate_composite_scores p = _calculate_composite_scores q.
Proof.
  intros p q Ps Pu. apply composites_of_present.
  - destruct (present_scores (structural_of p)) as [|s ss] eqn:Es.
    + now rewrite (Permutation_nil Ps).
    + destruct (present_scores (structural_of q)) as [|t ts] eqn:Et.
      * apply Permutation_sym, Permutation_nil in Ps. discriminate.
      * simpl. now apply mean_permutation.
  - destruct (present_scores (udder_of p)) as [|s ss] eqn:Es.
    + now rewrite (Permutation_nil Pu).
    + destruct (present_scores (udder_of q)) as [|t ts] eqn:Et.
      * apply Permutation_sym, Permutation_nil in Pu. discriminate.
      * f_equal. now apply mean_permutation.
Qed.

Lemma composites_permutation_invariant_witness :
  _calculate_composite_scores
    (payload_of_scores
       [ ("stature", entry 7);
         ("chest_width", BareEntry (Some 3%Z));
         ("rump_angle", entry 4) ]%string
       [ ("fore_udder", entry 6); ("teat_length", entry 2) ]%string)
  = _calculate_composite_scores
      (payload_of_scores
         [ ("horn_shape",
            DictEntry {| entry_score := Some (Some 4%Z);
                         entry_notes := Some "seen from the side"%string |});
           ("stature", entry 7) ]%string
         [ ("teat_length", entry 2);
           ("udder_depth",
            DictEntry {| entry_score := Some None; entry_notes := None |});
           ("fore_udder", entry 6) ]%string).
Proof.
  apply composites_permutation_invariant; simpl.
  - apply perm_swap.
  - apply perm_swap.
Defined.


(** Rounding to binary64 gives the same rational, in lowest terms, for two
    fractions of the same positive value. *)
Lemma rnd64_ext (x y : Q) : 0 < x -> x == y -> rnd64 x = rnd64 y.
Proof.
  intros P E.
  assert (Py : 0 < y) by lra.
  rewrite (rnd64_pos x P), (rnd64_pos y Py). unfold round_pos.
  apply Qred_complete.
  destruct (binade_spec x P) as [L U].
  assert (B : binade y = binade x) by (apply binade_unique; lra).
  unfold ulp_exp. rewrite B. now apply round_at_comp.
Qed.

Lemma sum_of_equal (k : Z) (xs : list Z) :
  Forall (eq k) xs ->
  fold_right Z.add 0%Z xs = (k * Z.of_nat (List.length xs))%Z.
Proof.
  induction 1 as [|x xs <- _ IH]; cbn [fold_right List.length]; lia.
Qed.

(** The mean of a non-empty list of equal scores is that score. *)
Lemma mean_of_equal (k : Z) (xs : list Z) :
  (0 < k)%Z -> xs <> [] -> Forall (eq k) xs -> mean xs = rnd64 (inject_Z k).
Proof.
  intros Pk N A. unfold mean, truediv. rewrite (sum_of_equal k xs A).
  set (n := Z.of_nat (List.length xs)).
  assert (Pn : (0 < n)%Z) by (destruct xs; [congruence | subst n; simpl; lia]).
  assert (Qk : 0 < inject_Z k) by (rewrite <- (Zlt_Qlt 0); exact Pk).
  assert (Qn : 0 < inject_Z n) by (rewrite <- (Zlt_Qlt 0); exact Pn).
  assert (E : inject_Z (k * n) / inject_Z n == inject_Z k).
  { rewrite inject_Z_mult. field. lra. }
  apply rnd64_ext; [|exact E]. rewrite E. exact Qk.
Qed.

(** What the calculator does to a score of 1 to 9: the float of the score,
    its rounding to two decimals, and the blend of the score with itself. *)
Lemma uniform_arithmetic (k : Z) :
  (1 <= k <= 9)%Z ->
  rnd64 (inject_Z k) = inject_Z k /\
  py_round2 (inject_Z k) = inject_Z k /\
  py_round2 (fadd (fmul (inject_Z k) c06) (fmul (inject_Z k) c04)) = inject_Z k /\
  truthy (inject_Z k) = true.
Proof.
  intros R.
  assert (C : (k = 1 \/ k = 2 \/ k = 3 \/ k = 4 \/ k = 5 \/ k = 6 \/ k = 7
               \/ k = 8 \/ k = 9)%Z) by lia.
  repeat destruct C as [->|C]; try subst k;
    repeat split; vm_compute; reflexivity.
Qed.

(** X2. When every present score of a payload is the same score k, with k
    from 1 to 9, and at least one structural score is present, the
    structural composite and the final composite are exactly k, and the
    udder composite is k when an udder score is present and absent
    otherwise: averaging, blending with the weights 0.6 and 0.4 and the
    roundings leave a uniform score unchanged. *)
Theorem uniform_scores_give_uniform_composites :
  forall (p : payload) (k : Z),
    (1 <= k <= 9)%Z ->
    present_scores (structural_of p) <> [] ->
    Forall (eq k) (present_scores (structural_of p)) ->
    Forall (eq k) (present_scores (udder_of p)) ->
    _calculate_composite_scores p
    = {| structural_composite := inject_Z k;
         udder_composite :=
           match present_scores (udder_of p) with
           | [] => None
           | _ :: _ => Some (inject_Z k)
           end;
         final_composite := inject_Z k |}.
Proof.
  intros p k R Ns As Au.
  destruct (uniform_arithmetic k R) as (Ek & Er & Eb & Et).
  rewrite composites_unfold. cbv zeta.
  assert (Ms : mean_or 5 (present_scores (structural_of p)) = inject_Z k).
  { destruct (present_scores (structural_of p)) as [|s ss]; [congruence|].
    unfold mean_or. rewrite (mean_of_equal k) by (try lia; easy). exact Ek. }
  rewrite Ms.
  destruct (present_scores (udder_of p)) as [|u us] eqn:Eu.
  - now rewrite Er.
  - rewrite (mean_of_equal k (u :: us)) by (try lia; easy).
    now rewrite Ek, Et, Er, Eb.
Qed.

Lemma uniform_scores_give_uniform_composites_witness :
  _calculate_composite_scores
    (payload_of_scores
       [ ("stature", entry 7); ("chest_width", entry 7);
         ("body_depth", entry 7) ]%string
       [ ("fore_udder", entry 7); ("teat_length", entry 7) ]%string)
  = {| structural_composite := 7; udder_composite := Some 7;
       final_composite := 7 |}.
Proof.
  apply (uniform_scores_give_uniform_composites
           (payload_of_scores
              [ ("stature", entry 7); ("chest_width", entry 7);
                ("body_depth", entry 7) ]%string
              [ ("fore_udder", entry 7); ("teat_length", entry 7) ]%string) 7).
  - lia.
  - discriminate.
  - simpl. repeat constructor.
  - simpl. repeat constructor.
Defined.


(** *** Raising scores *)

Lemma sum_pointwise_le (xs ys : list Z) :
  Forall2 Z.le xs ys ->
  (fold_right Z.add 0 xs <= fold_right Z.add 0 ys)%Z /\
  List.length xs = List.length ys.
Proof.
  induction 1 as [|x y xs ys L _ [IH1 IH2]]; cbn [fold_right List.length].
  - split; [lia | reflexivity].
  - split; [lia | now rewrite IH2].
Qed.

Lemma mean_pointwise_le (xs ys : list Z) :
  xs <> [] ->
  Forall (fun z => validate_score (Some z) = true) xs ->
  Forall2 Z.le xs ys ->
  mean xs <= mean ys.
Proof.
  intros N V L.
  destruct (sum_pointwise_le xs ys L) as [Ls El].
  destruct (sum_of_valid xs V) as [Lo _].
  unfold mean, truediv. rewrite <- El.
  set (n := Z.of_nat (List.length xs)) in *.
  assert (Pn : (0 < n)%Z) by (destruct xs; [congruence | subst n; simpl; lia]).
  set (a := fold_right Z.add 0%Z xs) in *.
  set (b := fold_right Z.add 0%Z ys) in *. clearbody a b n.
  assert (Qn : 0 < inject_Z n) by (rewrite <- (Zlt_Qlt 0); exact Pn).
  assert (Qa : 0 < inject_Z a) by (rewrite <- (Zlt_Qlt 0); lia).
  rewrite Zle_Qle in Ls.
  assert (In : 0 < / inject_Z n) by now apply Qinv_lt_0_compat.
  apply rnd64_mono.
  - apply Qmult_lt_0_compat; assumption.
  - apply Qmult_le_compat_r; [exact Ls | lra].
Qed.

Lemma py_round2_mono (x y : Q) :
  1 <= x -> x <= y -> py_round2 x <= py_round2 y.
Proof.
  intros L M. unfold py_round2.
  assert (Lr : (100 <= round_half_even (x * 100))%Z).
  { pose proof (round_half_even_mono (inject_Z 100) (x * 100)) as H.
    rewrite round_half_even_Z in H. apply H.
    change (inject_Z 100) with 100. lra. }
  assert (Mr : (round_half_even (x * 100) <= round_half_even (y * 100))%Z)
    by (apply round_half_even_mono; lra).
  rewrite Zle_Qle in Lr, Mr. change (inject_Z 100) with 100 in Lr.
  set (r := inject_Z (round_half_even (x * 100))) in *.
  set (t := inject_Z (round_half_even (y * 100))) in *. clearbody r t.
  apply rnd64_mono.
  - apply Qlt_shift_div_l; lra.
  - apply Qmult_le_compat_r; [exact Mr|]. apply Qlt_le_weak. reflexivity.
Qed.

Lemma blend_mono (s s' u u' : Q) :
  1 <= s -> s <= s' -> 1 <= u -> u <= u' ->
  fadd (fmul s c06) (fmul u c04) <= fadd (fmul s' c06) (fmul u' c04).
Proof.
  intros Ls Ms Lu Mu.
  pose proof c06_pos as P6. pose proof c04_pos as P4.
  destruct low_parts_pos as [Q6 Q4].
  assert (A1 : rnd64 (1 * c06) <= fmul s c06).
  { apply rnd64_mono; [lra|]. apply Qmult_le_compat_r; lra. }
  assert (B1 : rnd64 (1 * c04) <= fmul u c04).
  { apply rnd64_mono; [lra|]. apply Qmult_le_compat_r; lra. }
  assert (A : fmul s c06 <= fmul s' c06).
  { apply rnd64_mono.
    - apply Qlt_le_trans with (1 * c06); [lra|].
      apply Qmult_le_compat_r; lra.
    - apply Qmult_le_compat_r; lra. }
  assert (B : fmul u c04 <= fmul u' c04).
  { apply rnd64_mono.
    - apply Qlt_le_trans with (1 * c04); [lra|].
      apply Qmult_le_compat_r; lra.
    - apply Qmult_le_compat_r; lra. }
  unfold fadd at 1 2. apply rnd64_mono; lra.
Qed.

Lemma mean_or_pointwise_le (xs ys : list Z) :
  Forall (fun z => validate_score (Some z) = true) xs ->
  Forall2 Z.le xs ys ->
  mean_or 5 xs <= mean_or 5 ys.
Proof.
  intros V L. destruct L as [|x y xs ys L1 L2].
  - apply Qle_refl.
  - apply mean_pointwise_le; [discriminate | exact V | now constructor].
Qed.

(** X3. Raising scores never lowers a result.  Take a payload whose present
    scores all lie in [1, 9], and a second payload with as many present
    scores in each category, each at least as high as its counterpart.
    Then the structural composite, the udder composite (defined for both or
    for neither) and the final composite of the second are at least those
    of the first, and its grade is not lower on the ladder. *)
Theorem raising_scores_never_lowers_composites : forall (p q : payload),
  scores_valid (structural_of p) ->
  scores_valid (udder_of p) ->
  Forall2 Z.le (present_scores (structural_of p))
               (present_scores (structural_of q)) ->
  Forall2 Z.le (present_scores (udder_of p)) (present_scores (udder_of q)) ->
  let c := _calculate_composite_scores p in
  let d := _calculate_composite_scores q in
  structural_composite c <= structural_composite d /\
  match udder_composite c, udder_composite d with
  | Some u, Some v => u <= v
  | None, None => True
  | _, _ => False
  end /\
  final_composite c <= final_composite d /\
  (grade_rank (calculate_overall_grade (final_composite c))
   <= grade_rank (calculate_overall_grade (final_composite d)))%nat.
Proof.
  intros p q Vs Vu Ls Lu c d.
  assert (F : final_composite c <= final_composite d
              -> (grade_rank (calculate_overall_grade (final_composite c))
                  <= grade_rank (calculate_overall_grade (final_composite d)))%nat)
    by apply GradeFacts.grade_monotone.
  subst c d. revert F. rewrite !composites_unfold. cbv zeta.
  cbn [structural_composite udder_composite final_composite].
  unfold scores_valid in Vs, Vu.
  pose proof (mean_or_range _ Vs) as [Rs1 Rs9].
  pose proof (mean_or_pointwise_le _ _ Vs Ls) as Ms.
  set (s := mean_or 5 (present_scores (structural_of p))) in *.
  set (s' := mean_or 5 (present_scores (structural_of q))) in *.
  destruct Lu as [|u v us vs L1 L2]; intros F.
  - assert (R : py_round2 s <= py_round2 s') by now apply py_round2_mono.
    repeat split; try exact R. now apply F.
  - assert (Ru : 1 <= mean (u :: us) <= 9)
      by (apply mean_range; [discriminate | exact Vu]).
    assert (Mu : mean (u :: us) <= mean (v :: vs))
      by (apply mean_pointwise_le;
          [discriminate | exact Vu | now constructor]).
    destruct Ru as [Ru1 Ru9].
    assert (Tu : truthy (mean (u :: us)) = true).
    { unfold truthy. destruct (Qeq_bool _ 0) eqn:E; [|reflexivity].
      apply Qeq_bool_iff in E. lra. }
    assert (Tv : truthy (mean (v :: vs)) = true).
    { unfold truthy. destruct (Qeq_bool _ 0) eqn:E; [|reflexivity].
      apply Qeq_bool_iff in E. lra. }
    rewrite Tu, Tv.
    assert (B : py_round2 (fadd (fmul s c06) (fmul (mean (u :: us)) c04))
                <= py_round2 (fadd (fmul s' c06) (fmul (mean (v :: vs)) c04))).
    { apply py_round2_mono.
      - apply blend_range; split; assumption.
      - apply blend_mono; assumption. }
    split; [now apply py_round2_mono|].
    split; [now apply py_round2_mono|].
    split; [exact B | now apply F].
Qed.

Lemma raising_scores_never_lowers_composites_witness :
  let c :=
    _calculate_composite_scores
      (payload_of_scores
         [ ("stature", entry 5); ("chest_width", entry 6) ]%string
         [ ("fore_udder", entry 4) ]%string) in
  let d :=
    _calculate_composite_scores
      (payload_of_scores
         [ ("stature", entry 5); ("chest_width", entry 8) ]%string
         [ ("fore_udder", entry 7) ]%string) in
  structural_composite c <= structural_composite d /\
  match udder_composite c, udder_composite d with
  | Some u, Some v => u <= v
  | None, None => True
  | _, _ => False
  end /\
  final_composite c <= final_composite d /\
  (grade_rank (calculate_overall_grade (final_composite c))
   <= grade_rank (calculate_overall_grade (final_composite d)))%nat.
Proof.
  apply raising_scores_never_lowers_composites;
    unfold scores_valid; simpl; repeat constructor; lia.
Defined.

(** X4. Without a present udder score the udder composite is absent and
    the final composite is the structural composite, for every payload.
    When the present udder scores lie in [1, 9], their absence is also the
    only way for the udder composite to be absent. *)
Theorem udder_composite_absent_iff_unscored : forall (p : payload),
  (present_scores (udder_of p) = [] ->
   udder_composite (_calculate_composite_scores p) = None /\
   final_composite (_calculate_composite_scores p)
   = structural_composite (_calculate_composite_scores p)) /\
  (scores_valid (udder_of p) ->
   udder_composite (_calculate_composite_scores p) = None ->
   present_scores (udder_of p) = []).
Proof.
  intros p. split.
  - apply no_udder_score.
  - intros V A.
    destruct (present_scores (udder_of p)) as [|u us] eqn:E; [reflexivity|].
    rewrite udder_composite_of_valid_scores in A; [discriminate| |exact V].
    rewrite E. discriminate.
Qed.

End CalculatorFacts.

(* ------------------------------------------------------------------ *)
(** ** Validation and the path from a payload to its export *)

Module PipelineFacts.
Import PyFloat GeminiAnalyzer ATCScorer Spec Notions ReportFacts.
Local Open Scope string_scope.

Lemma fill_fill {A : Type} (o : option A) (default : A) :
  fill (fill o default) default = fill o default.
Proof. now destruct o. Qed.

Lemma fill_get_default {A : Type} (o : option A) (default : A) :
  fill o default = Some (get_default o default).
Proof. now destruct o. Qed.

(** X5. [_validate_result] leaves every key of the result present: a key
    the payload had keeps its value and a missing key gets its default.
    The one exception is ["composite_scores"], which is always replaced by
    the calculator's result on the payload, whatever the payload said.
    Validating twice is validating once. *)
Theorem validation_completes_and_is_idempotent : forall (p : payload),
  let v := _validate_result p in
  animal_detected v = Some (get_default (animal_detected p) false) /\
  animal_type v = Some (get_default (animal_type p) "unknown") /\
  breed_guess v = Some (get_default (breed_guess p) "unknown") /\
  sex v = Some (get_default (sex p) "unknown") /\
  image_quality v = Some (get_default (image_quality p) "fair") /\
  image_angle v = Some (get_default (image_angle p) "unknown") /\
  body_parts_visible v = Some (get_default (body_parts_visible p) Dict.empty) /\
  structural_scores v = Some (structural_of p) /\
  udder_scores v = Some (udder_of p) /\
  overall_score v = Some (get_default (overall_score p) 5%Z) /\
  overall_assessment v = Some (get_default (overall_assessment p) EmptyString) /\
  recommendations v = Some (get_default (recommendations p) []) /\
  payload_composites v = Some (_calculate_composite_scores p) /\
  _validate_result v = v.
Proof.
  intros p v. subst v.
  repeat (split; [apply fill_get_default|]).
  split; [apply composites_after_defaults|].
  destruct p as [a b c d e f g h i j k l m].
  unfold _validate_result.
  cbn [animal_detected animal_type breed_guess sex image_quality image_angle
       body_parts_visible structural_scores udder_scores overall_score
       overall_assessment recommendations payload_composites].
  rewrite !fill_fill. reflexivity.
Qed.


(** X6. The export of the report built from a validated result carries the
    report identifier and timestamp, the animal metadata with their
    defaults, the assessment and the recommendations, and the calculator's
    results for the raw payload: the structural and final composites are
    never null there, the udder composite is the calculator's (null when
    absent), and the grade is the ladder on the final composite.  The
    export of a report built from a result without ["composite_scores"]
    has three null composites and the grade "Good". *)
Theorem export_carries_calculator_results :
  forall (now_id now_iso : string) (p : payload),
    (exists report,
       format_report now_id now_iso (_validate_result p) = Some report /\
       let e := export_for_bpa report in
       BpaExport.report_id e = now_id /\
       BpaExport.timestamp e = now_iso /\
       BpaExport.animal_type e = get_default (animal_type p) "unknown" /\
       BpaExport.breed e = get_default (breed_guess p) "unknown" /\
       BpaExport.sex e = get_default (sex p) "unknown" /\
       BpaExport.structural_composite e
       = Some (structural_composite (_calculate_composite_scores p)) /\
       BpaExport.udder_composite e
       = udder_composite (_calculate_composite_scores p) /\
       BpaExport.final_composite e
       = Some (final_composite (_calculate_composite_scores p)) /\
       BpaExport.overall_grade e
       = calculate_overall_grade
           (final_composite (_calculate_composite_scores p)) /\
       BpaExport.assessment e
       = get_default (overall_assessment p) EmptyString /\
       BpaExport.recommendations e = get_default (recommendations p) []) /\
    (payload_composites p = None ->
     exists report,
       format_report now_id now_iso p = Some report /\
       let e := export_for_bpa report in
       BpaExport.structural_composite e = None /\
       BpaExport.udder_composite e = None /\
       BpaExport.final_composite e = None /\
       BpaExport.overall_grade e = "Good").
Proof.
  intros now_id now_iso p. split.
  - destruct (format_report_total now_id now_iso (_validate_result p))
      as (s & u & _ & _ & R).
    eexists. split; [exact R|]. cbv zeta.
    unfold export_for_bpa.
    cbn [BpaExport.report_id BpaExport.timestamp BpaExport.animal_type
         BpaExport.breed BpaExport.sex BpaExport.structural_composite
         BpaExport.udder_composite BpaExport.final_composite
         BpaExport.overall_grade BpaExport.assessment
         BpaExport.recommendations
         Report.report_id Report.generated_at Report.animal_info
         Report.composites Report.overall_grade Report.assessment
         Report.recommendations AnimalInfo.type AnimalInfo.breed
         AnimalInfo.sex].
    rewrite composites_after_defaults.
    destruct p as [a b c d e f g h i j k l m].
    cbn [_validate_result animal_type breed_guess sex overall_assessment
         recommendations option_map].
    repeat split; try reflexivity;
      match goal with |- get_default (fill ?o ?x) _ = _ => now destruct o end.
  - intros N.
    destruct (format_report_total now_id now_iso p) as (s & u & _ & _ & R).
    eexists. split; [exact R|]. cbv zeta. unfold export_for_bpa.
    cbn [BpaExport.structural_composite BpaExport.udder_composite
         BpaExport.final_composite BpaExport.overall_grade
         Report.composites Report.overall_grade].
    rewrite N. repeat split.
Qed.

(** *** The formatted score lists *)

(** No interpretation of a score reads "Not assessed". *)
Lemma description_is_not_the_placeholder trait_id (score : Z) :
  get_score_description trait_id score <> Some "Not assessed".
Proof.
  destruct (Dict.get descriptions trait_id) as [trait_desc|] eqn:G.
  - pose proof (DictFacts.get_In _ _ _ G) as I.
    unfold descriptions in I. simpl in I.
    repeat (destruct I as [I|I];
            [injection I as _ <-;
             rewrite (InterpreterFacts.known_trait_description _ _ _ _ score G);
             unfold interpretation;
             repeat match goal with
               | |- context [if ?b then _ else _] => destruct b
               end; discriminate|]).
    contradiction.
  - unfold get_score_description. rewrite G. discriminate.
Qed.


(** The loop of [_format_scores] formats the entries one by one, in
    order. *)
Lemma format_loop_entries trait_defs (scores : Dict.t string trait_data)
    (done : list Formatted.t) :
  exists rest,
    fold_left
      (fun formatted item =>
         acc <- formatted ;;
         entry <- format_one trait_defs item ;;
         Some (acc ++ [entry])%list)
      scores (Some done) = Some (done ++ rest)%list /\
    Forall2 (fun item f => format_one trait_defs item = Some f) scores rest.
Proof.
  revert done. induction scores as [|item scores IH]; intros done; simpl.
  - exists []. split; [now rewrite app_nil_r | constructor].
  - destruct (format_one_total trait_defs item) as (entry & E & _).
    rewrite E. simpl.
    destruct (IH (done ++ [entry])%list) as (rest & -> & F).
    exists (entry :: rest). split.
    + now rewrite <- app_assoc.
    + now constructor.
Qed.

Lemma format_scores_entries (scores : Dict.t string trait_data) category :
  exists formatted,
    _format_scores scores category = Some formatted /\
    Forall2 (fun item f =>
               format_one (index_by_id (catalogue category)) item = Some f)
            scores formatted.
Proof.
  unfold _format_scores. fold (catalogue category).
  destruct (format_loop_entries (index_by_id (catalogue category)) scores [])
    as (rest & E & F).
  exists rest. split; [exact E | exact F].
Qed.

(** Looking a trait up in the index of a category is finding it in the
    catalogue of that category. *)
Lemma index_lookup (category trait_id : string) :
  match Dict.get (index_by_id (catalogue category)) trait_id with
  | Some trait_def => (Trait.name trait_def, Trait.description trait_def)
  | None => (trait_id, EmptyString)
  end = display_of category trait_id.
Proof.
  unfold display_of, catalogue, traits, Config.ATC_TRAITS.
  cbn [Dict.get keqb string_KeyEq].
  destruct (String.eqb "structural" category); [reflexivity|].
  destruct (String.eqb "udder" category); reflexivity.
Qed.

Lemma format_one_fields category (item : string * trait_data) f :
  format_one (index_by_id (catalogue category)) item = Some f ->
  Formatted.trait_id f = fst item /\
  (Formatted.trait_name f, Formatted.description f)
  = display_of category (fst item) /\
  Formatted.score f = data_score (snd item) /\
  Formatted.notes f = notes_of (snd item) /\
  Some (Formatted.score_description f)
  = shown_description (fst item) (data_score (snd item)).
Proof.
  destruct item as [trait_id data]. unfold format_one. cbn [fst snd].
  rewrite <- (index_lookup category trait_id).
  destruct (Dict.get (index_by_id (catalogue category)) trait_id)
    as [trait_def|];
    destruct data as [e|v]; cbn [fst snd data_score notes_of];
    unfold shown_description, score_truthy;
    match goal with
    | |- context [get_score e] => destruct (get_score e) as [z|]
    | |- _ => destruct v as [z|]
    end;
    try destruct (z =? 0)%Z; cbn [negb bind];
    try (destruct (get_score_description trait_id z); cbn [bind]);
    intros [= <-]; repeat split.
Qed.


(** X7. In a formatted score list, the interpretation of an entry reads
    "Not assessed" exactly when its score is [null] or 0, and is the text
    of [get_score_description] for its trait and score otherwise; the score
    itself is carried unchanged, so a score of 0 is listed as 0 and
    described as not assessed. *)
Theorem not_assessed_iff_null_or_zero :
  forall (scores : Dict.t string trait_data) (category : string),
    exists formatted,
      _format_scores scores category = Some formatted /\
      Forall2
        (fun item f =>
           Formatted.score f = data_score (snd item) /\
           (Formatted.score_description f = "Not assessed"
            <-> Formatted.score f = None \/ Formatted.score f = Some 0%Z) /\
           (forall z, Formatted.score f = Some z -> z <> 0%Z ->
                      get_score_description (Formatted.trait_id f) z
                      = Some (Formatted.score_description f)))
        scores formatted.
Proof.
  intros scores category.
  destruct (format_scores_entries scores category) as (formatted & E & F).
  exists formatted. split; [exact E|].
  eapply Forall2_impl; [|exact F].
  intros item f O.
  destruct (format_one_fields category item f O) as (I & _ & S & _ & D).
  rewrite I, S. split; [reflexivity|].
  unfold shown_description in D.
  destruct (data_score (snd item)) as [z|].
  - destruct (Z.eqb_spec z 0) as [->|N].
    + injection D as ->. split; [split; auto|]. intros z [= <-] N. congruence.
    + split.
      * split.
        -- intros T. exfalso.
           apply (description_is_not_the_placeholder (fst item) z).
           now rewrite <- D, T.
        -- intros [C|C]; [discriminate | congruence].
      * intros z' [= <-] _. now rewrite D.
  - injection D as ->. split; [split; auto|]. discriminate.
Qed.

(** X8. A formatted score list has one entry per trait of the score map,
    in the order of the map.  Each entry shows the name and the
    description the catalogue of [config.py] gives the trait in that
    category, and the trait identifier with an empty description when the
    trait is not in the catalogue of that category; its notes are the notes
    of the payload, empty when there are none or when the entry is a bare
    score. *)
Theorem formatted_entries_follow_the_catalogue :
  forall (scores : Dict.t string trait_data) (category : string),
    exists formatted,
      _format_scores scores category = Some formatted /\
      Forall2
        (fun item f =>
           Formatted.trait_id f = fst item /\
           (Formatted.trait_name f, Formatted.description f)
           = display_of category (fst item) /\
           Formatted.notes f = notes_of (snd item))
        scores formatted.
Proof.
  intros scores category.
  destruct (format_scores_entries scores category) as (formatted & E & F).
  exists formatted. split; [exact E|].
  eapply Forall2_impl; [|exact F].
  intros item f O.
  destruct (format_one_fields category item f O) as (I & N & _ & T & _).
  repeat split; assumption.
Qed.

(** X9. [get_score_description] gives the generic text "Score: n" exactly
    for the trait identifiers outside the catalogue of [config.py]: every
    trait of the catalogue, structural or udder, has its own table of
    anchor texts, and no other identifier has one. *)
Theorem generic_text_iff_outside_catalogue :
  forall (trait_id : string) (score : Z),
    get_score_description trait_id score
    = Some ("Score: " ++ PyStr.str_of_int score)
    <-> in_catalogue trait_id = false.
Proof.
  intros trait_id score.
  assert (M : Dict.mem descriptions trait_id = in_catalogue trait_id).
  { cbv [Dict.mem Dict.get descriptions keqb string_KeyEq in_catalogue existsb
         app Config.structural_traits Config.udder_traits Trait.id].
    repeat (destruct (String.eqb _ trait_id); [reflexivity|]).
    reflexivity. }
  rewrite <- M. unfold Dict.mem.
  destruct (Dict.get descriptions trait_id) as [trait_desc|] eqn:G.
  - split; [|discriminate]. intros E. exfalso.
    pose proof (DictFacts.get_In _ _ _ G) as I.
    unfold descriptions in I. simpl in I.
    repeat (destruct I as [I|I];
            [injection I as _ <-;
             rewrite (InterpreterFacts.known_trait_description _ _ _ _ score G)
               in E;
             unfold interpretation in E;
             repeat match type of E with
               | context [if ?b then _ else _] => destruct b
               end; discriminate|]).
    contradiction.
  - split; [reflexivity|]. intros _.
    unfold get_score_description. now rewrite G.
Qed.

End PipelineFacts.

(* ------------------------------------------------------------------ *)
(** ** Cleaning the response text *)

Module CleanFacts.
Import GeminiAnalyzer Spec Notions.
Local Open Scope string_scope.

Lemma append_assoc (a b c : string) : (a ++ b) ++ c = a ++ b ++ c.
Proof. induction a as [|x a IH]; simpl; [reflexivity | now rewrite IH]. Qed.

Lemma append_empty (a : string) : a ++ EmptyString = a.
Proof. induction a as [|x a IH]; simpl; [reflexivity | now rewrite IH]. Qed.

Lemma length_append (a b : string) :
  String.length (a ++ b) = (String.length a + String.length b)%nat.
Proof. induction a as [|x a IH]; simpl; [reflexivity | now rewrite IH]. Qed.

Lemma substring_whole (s : string) : substring 0 (String.length s) s = s.
Proof. induction s as [|x s IH]; simpl; [reflexivity | now rewrite IH]. Qed.

Lemma substring_head (a b : string) :
  substring 0 (String.length a) (a ++ b) = a.
Proof.
  induction a as [|x a IH]; simpl.
  - now destruct b.
  - now rewrite IH.
Qed.

Lemma substring_tail (a b : string) :
  substring (String.length a) (String.length b) (a ++ b) = b.
Proof.
  induction a as [|x a IH]; simpl; [apply substring_whole | exact IH].
Qed.

(** [(a + b)[len(a):]] *)
Lemma drop_prefix (a b : string) : PyStr.drop (String.length a) (a ++ b) = b.
Proof.
  unfold PyStr.drop. rewrite length_append.
  replace (String.length a + String.length b - String.length a)%nat
    with (String.length b) by lia.
  apply substring_tail.
Qed.

(** [(a + b)[:-len(b)]] *)
Lemma drop_last_suffix (a b : string) :
  PyStr.drop_last (String.length b) (a ++ b) = a.
Proof.
  unfold PyStr.drop_last. rewrite length_append.
  replace (String.length a + String.length b - String.length b)%nat
    with (String.length a) by lia.
  apply substring_head.
Qed.

Lemma startswith_prefix (a b : string) : PyStr.startswith (a ++ b) a = true.
Proof.
  unfold PyStr.startswith.
  induction a as [|x a IH]; simpl.
  - now destruct b.
  - destruct (ascii_dec x x); [exact IH | congruence].
Qed.

Lemma endswith_suffix (a b : string) : PyStr.endswith (a ++ b) b = true.
Proof.
  unfold PyStr.endswith. rewrite length_append.
  replace (String.length a + String.length b - String.length b)%nat
    with (String.length a) by lia.
  rewrite drop_prefix, String.eqb_refl, andb_true_r.
  apply Nat.leb_le. lia.
Qed.

(** *** Stripping whitespace *)

Lemma lstrip_blank (a s : string) :
  blank a = true -> PyStr.lstrip (a ++ s) = PyStr.lstrip s.
Proof.
  induction a as [|x a IH]; simpl; [reflexivity|].
  intros B. apply andb_true_iff in B. destruct B as [-> B]. auto.
Qed.

Lemma rstrip_of_blank (b : string) :
  blank b = true -> PyStr.rstrip b = EmptyString.
Proof.
  induction b as [|x b IH]; simpl; [reflexivity|].
  intros B. apply andb_true_iff in B. destruct B as [-> B].
  now rewrite IH.
Qed.

Lemma rstrip_blank (s b : string) :
  blank b = true -> PyStr.rstrip (s ++ b) = PyStr.rstrip s.
Proof.
  intros B. induction s as [|x s IH]; simpl.
  - now apply rstrip_of_blank.
  - now rewrite IH.
Qed.

Lemma lstrip_of_blank (b : string) :
  blank b = true -> PyStr.lstrip b = EmptyString.
Proof.
  induction b as [|x b IH]; simpl; [reflexivity|].
  intros B. apply andb_true_iff in B. destruct B as [-> B]. auto.
Qed.

Lemma strip_inner_blank (s b : string) :
  blank b = true ->
  PyStr.rstrip (PyStr.lstrip (s ++ b)) = PyStr.rstrip (PyStr.lstrip s).
Proof.
  intros B. induction s as [|x s IH]; simpl.
  - now rewrite (lstrip_of_blank b B).
  - destruct (PyStr.is_space x); [exact IH|].
    change (String x (s ++ b)) with (String x s ++ b).
    now apply rstrip_blank.
Qed.

(** Whitespace around a text does not survive [strip]. *)
Lemma strip_surrounded (a s b : string) :
  blank a = true -> blank b = true ->
  PyStr.strip (a ++ s ++ b) = PyStr.strip s.
Proof.
  intros A B. unfold PyStr.strip.
  rewrite (lstrip_blank a) by exact A. now apply strip_inner_blank.
Qed.

Lemma rstrip_keeps (a t : string) :
  PyStr.rstrip t <> EmptyString ->
  PyStr.rstrip (a ++ t) = a ++ PyStr.rstrip t.
Proof.
  intros N. induction a as [|x a IH]; simpl; [reflexivity|].
  rewrite IH. destruct (a ++ PyStr.rstrip t) eqn:E; [|reflexivity].
  destruct a; simpl in E; [congruence | discriminate].
Qed.


Lemma lstrip_first (s : string) : first_not_space (PyStr.lstrip s).
Proof.
  induction s as [|x s IH]; simpl; [exact I|].
  destruct (PyStr.is_space x) eqn:E; [exact IH | exact E].
Qed.

Lemma lstrip_fixed (s : string) : first_not_space s -> PyStr.lstrip s = s.
Proof. destruct s as [|x s]; simpl; [reflexivity | now intros ->]. Qed.

Lemma rstrip_first (s : string) :
  first_not_space s -> first_not_space (PyStr.rstrip s).
Proof.
  destruct s as [|x s]; simpl; [trivial|]. intros F.
  destruct (PyStr.rstrip s); [rewrite F|]; exact F.
Qed.

Lemma rstrip_rstrip (s : string) : PyStr.rstrip (PyStr.rstrip s) = PyStr.rstrip s.
Proof.
  induction s as [|x s IH]; simpl; [reflexivity|].
  destruct (PyStr.rstrip s) as [|y r] eqn:E.
  - destruct (PyStr.is_space x) eqn:S; simpl; [reflexivity | now rewrite S].
  - simpl. simpl in IH. now rewrite IH.
Qed.

(** Stripping twice is stripping once. *)
Lemma strip_strip (s : string) : PyStr.strip (PyStr.strip s) = PyStr.strip s.
Proof.
  unfold PyStr.strip.
  rewrite (lstrip_fixed (PyStr.rstrip (PyStr.lstrip s)))
    by apply rstrip_first, lstrip_first.
  apply rstrip_rstrip.
Qed.

Lemma prefix_of_longer (a b s : string) :
  String.prefix (a ++ b) s = true -> String.prefix a s = true.
Proof.
  revert s. induction a as [|x a IH]; intros s; simpl.
  - now destruct s.
  - destruct s as [|y s]; simpl; [discriminate|].
    destruct (ascii_dec x y); [apply IH | discriminate].
Qed.

(** A fenced block is its own [strip]. *)
Lemma strip_fenced (tag body : string) :
  PyStr.strip (fenced tag body) = fenced tag body.
Proof.
  unfold PyStr.strip.
  assert (L : PyStr.lstrip (fenced tag body) = fenced tag body)
    by reflexivity.
  rewrite L. unfold fenced.
  rewrite <- !append_assoc.
  rewrite rstrip_keeps by discriminate. reflexivity.
Qed.

(** What is left of a fenced block after the opening fence. *)
Lemma clean_after_opening (body : string) :
  let rest := nl ++ body ++ nl ++ "```" in
  PyStr.strip
    (if PyStr.endswith
          (if PyStr.startswith rest "```" then PyStr.drop 3 rest else rest)
          "```"
     then PyStr.drop_last 3
            (if PyStr.startswith rest "```" then PyStr.drop 3 rest else rest)
     else if PyStr.startswith rest "```" then PyStr.drop 3 rest else rest)
  = PyStr.strip body.
Proof.
  intros rest.
  assert (S : PyStr.startswith rest "```" = false) by reflexivity.
  rewrite S.
  assert (R : rest = (nl ++ body ++ nl) ++ "```")
    by (unfold rest; now rewrite !append_assoc).
  rewrite R, endswith_suffix.
  pose proof (drop_last_suffix (nl ++ body ++ nl) "```") as D.
  change (String.length "```") with 3%nat in D. rewrite D.
  now apply strip_surrounded.
Qed.

(** X10. The clean-up before decoding removes a markdown fence.  A body
    wrapped in a fence tagged json or in a plain fence, each fence on its
    own line, with any whitespace around the block, is cleaned to the body
    without its surrounding whitespace, whatever the body holds; so such a
    response is parsed as its body.  A text that, once stripped, neither
    starts nor ends with a fence is only stripped. *)
Theorem clean_removes_fences :
  forall (json_loads : decoder) (lead body trail text : string),
    (blank lead = true -> blank trail = true ->
     clean (lead ++ fenced "json" body ++ trail) = PyStr.strip body /\
     clean (lead ++ fenced EmptyString body ++ trail) = PyStr.strip body /\
     forall o,
       json_loads (PyStr.strip body) = inl (JObject o) ->
       _parse_response json_loads (lead ++ fenced "json" body ++ trail)
       = Returns (Structured (_validate_result o))) /\
    (PyStr.startswith (PyStr.strip text) "```" = false ->
     PyStr.endswith (PyStr.strip text) "```" = false ->
     clean text = PyStr.strip text).
Proof.
  intros json_loads lead body trail text. split.
  - intros L T.
    assert (J : clean (lead ++ fenced "json" body ++ trail) = PyStr.strip body).
    { unfold clean. cbv zeta.
      rewrite (strip_surrounded lead _ trail L T), strip_fenced.
      change (fenced "json" body)
        with ("```json" ++ (nl ++ body ++ nl ++ "```")).
      rewrite startswith_prefix.
      pose proof (drop_prefix "```json" (nl ++ body ++ nl ++ "```")) as D.
      change (String.length "```json") with 7%nat in D. rewrite D.
      apply clean_after_opening. }
    split; [exact J|]. split.
    + unfold clean. cbv zeta.
      rewrite (strip_surrounded lead _ trail L T), strip_fenced.
      assert (N : PyStr.startswith (fenced EmptyString body) "```json" = false)
        by reflexivity.
      rewrite N.
      change (fenced EmptyString body)
        with ("```" ++ (nl ++ body ++ nl ++ "```")).
      rewrite startswith_prefix.
      pose proof (drop_prefix "```" (nl ++ body ++ nl ++ "```")) as D.
      change (String.length "```") with 3%nat in D. rewrite D.
      assert (S : PyStr.startswith (nl ++ body ++ nl ++ "```") "```" = false)
        by reflexivity.
      pose proof (clean_after_opening body) as C. cbv zeta in C.
      rewrite S in C. exact C.
    + intros o D. unfold _parse_response. now rewrite J, D.
  - intros S E. unfold clean. cbv zeta.
    assert (S7 : PyStr.startswith (PyStr.strip text) "```json" = false).
    { destruct (PyStr.startswith (PyStr.strip text) "```json") eqn:P;
        [|reflexivity].
      unfold PyStr.startswith in *.
      now rewrite (prefix_of_longer "```" "json" _ P) in S. }
    rewrite S7, S, E. apply strip_strip.
Qed.

End CleanFacts.

(* ------------------------------------------------------------------ *)
(** ** app.py: uploads and the stored reports *)

Module AppFacts.
Import ATCScorer Spec App.
Local Open Scope string_scope.

Lemma after_last_none (c : ascii) (s : string) :
  PyText.contains c s = false -> PyText.after_last c s = None.
Proof.
  induction s as [|a s IH]; simpl; [reflexivity|].
  intros C. apply orb_false_iff in C. destruct C as [-> C].
  now rewrite IH.
Qed.

Lemma after_last_append (c : ascii) (base extension : string) :
  PyText.contains c extension = false ->
  PyText.after_last c (base ++ String c extension) = Some extension.
Proof.
  intros C. induction base as [|a base IH]; simpl.
  - now rewrite (after_last_none c extension C), Ascii.eqb_refl.
  - now rewrite IH.
Qed.

Lemma contains_append (c : ascii) (base rest : string) :
  PyText.contains c (base ++ String c rest) = true.
Proof.
  induction base as [|a base IH]; simpl.
  - now rewrite Ascii.eqb_refl.
  - rewrite IH. apply orb_true_r.
Qed.

(** X11. [allowed_file] looks at nothing but what follows the last dot of
    the file name, in lower case: a name that ends in a dot and an
    extension without dots is accepted exactly when the extension is png,
    jpg, jpeg or webp in any mix of cases, whatever precedes that dot (an
    empty base name and further dots included), and a name without a dot is
    refused. *)
Theorem allowed_file_reads_last_extension :
  forall (base extension name : string),
    (PyText.contains "." extension = false ->
     allowed_file (base ++ "." ++ extension)
     = existsb (String.eqb (PyText.lower extension)) ALLOWED_EXTENSIONS) /\
    (PyText.contains "." name = false -> allowed_file name = false).
Proof.
  intros base extension name. split.
  - intros C. unfold allowed_file.
    change ("." ++ extension) with (String "." extension).
    now rewrite contains_append, (after_last_append _ _ _ C).
  - intros C. unfold allowed_file. now rewrite C.
Qed.

Example allowed_upper_case : allowed_file "Cow.Side.JPEG" = true.
Proof. reflexivity. Qed.

Example refused_double_extension : allowed_file "cow.png.exe" = false.
Proof. reflexivity. Qed.

Example refused_trailing_dot : allowed_file "cow.png." = false.
Proof. reflexivity. Qed.

(** *** The stored reports *)

Section Store.
Context {V : Type}.

Lemma get_set_same (d : Dict.t string V) (k : string) (v : V) :
  Dict.get (Dict.set d k v) k = Some v.
Proof.
  induction d as [|[k' v'] d IH]; simpl.
  - now rewrite String.eqb_refl.
  - destruct (String.eqb k' k) eqn:E; simpl; rewrite E; [reflexivity | exact IH].
Qed.

Lemma get_set_other (d : Dict.t string V) (k k' : string) (v : V) :
  k' <> k -> Dict.get (Dict.set d k v) k' = Dict.get d k'.
Proof.
  intros N.
  assert (E : String.eqb k k' = false)
    by (apply String.eqb_neq; congruence).
  induction d as [|[k0 v0] d IH]; simpl.
  - now rewrite E.
  - destruct (String.eqb_spec k0 k) as [->|N0]; simpl.
    + now rewrite E.
    + now rewrite IH.
Qed.

Lemma keys_set (d : Dict.t string V) (k : string) (v : V) :
  Dict.keys (Dict.set d k v)
  = if Dict.mem d k then Dict.keys d else (Dict.keys d ++ [k])%list.
Proof.
  unfold Dict.mem. induction d as [|[k0 v0] d IH]; simpl; [reflexivity|].
  destruct (String.eqb k0 k); simpl; [reflexivity|].
  rewrite IH. now destruct (Dict.get d k).
Qed.

End Store.


Lemma store_report_total (analysis_results : results)
    (now_id now_iso filename : string) (result : payload) :
  exists report,
    format_report now_id now_iso result = Some report /\
    Report.report_id report = now_id /\
    store_report analysis_results now_id now_iso filename result
    = Some (Dict.set analysis_results now_id
              {| report := report; image_path := filename |},
            {| report := report; image_path := filename |}).
Proof.
  destruct (ReportFacts.format_report_total now_id now_iso result)
    as (s & u & _ & _ & R).
  eexists. split; [exact R|]. split; [reflexivity|].
  unfold store_report. now rewrite R.
Qed.

(** X12. Storing and reading back.  An upload with an analysis result
    always stores a report.  Afterwards the result route gives that report
    with the image path of the upload under the identifier of the upload,
    the export route gives the export of that report, and every other
    identifier answers as before; an identifier that is not stored is
    answered with "Report not found". *)
Theorem stored_report_is_read_back :
  forall (analysis_results : results) (now_id now_iso filename : string)
         (result : payload),
    exists after stored_report,
      store_report analysis_results now_id now_iso filename result
      = Some (after, stored_report) /\
      format_report now_id now_iso result = Some (report stored_report) /\
      image_path stored_report = filename /\
      get_result_api after now_id = Ok stored_report /\
      export_result after now_id
      = Ok (export_for_bpa (report stored_report)) /\
      (forall other,
          other <> now_id ->
          get_result_api after other = get_result_api analysis_results other /\
          export_result after other = export_result analysis_results other) /\
      (forall other,
          Dict.mem after other = false ->
          get_result_api after other = NotFound "Report not found" /\
          export_result after other = NotFound "Report not found").
Proof.
  intros analysis_results now_id now_iso filename result.
  destruct (store_report_total analysis_results now_id now_iso filename result)
    as (r & F & _ & S).
  eexists. eexists. split; [exact S|].
  split; [exact F|]. split; [reflexivity|].
  unfold get_result_api, export_result.
  rewrite get_set_same. split; [reflexivity|]. split; [reflexivity|].
  split.
  - intros other N. now rewrite (get_set_other _ _ _ _ N).
  - intros other M. unfold Dict.mem in M.
    destruct (Dict.get _ other); [discriminate | now split].
Qed.

(** X13. Two uploads with the same identifier, which is the time of the
    upload to the second, collide: after the second upload the identifier
    gives the second report and no longer the first, and the store holds
    the same identifiers as after the first upload.  An upload with an
    identifier that is not stored yet adds that identifier at the end. *)
Theorem same_second_uploads_collide :
  forall (analysis_results : results) (now_id : string)
         (iso1 iso2 file1 file2 : string) (result1 result2 : payload),
    exists after1 first after2 second,
      store_report analysis_results now_id iso1 file1 result1
      = Some (after1, first) /\
      store_report after1 now_id iso2 file2 result2 = Some (after2, second) /\
      get_result_api after1 now_id = Ok first /\
      get_result_api after2 now_id = Ok second /\
      Dict.keys after2 = Dict.keys after1 /\
      (Dict.mem analysis_results now_id = false ->
       Dict.keys after1 = (Dict.keys analysis_results ++ [now_id])%list).
Proof.
  intros analysis_results now_id iso1 iso2 file1 file2 result1 result2.
  destruct (store_report_total analysis_results now_id iso1 file1 result1)
    as (r1 & _ & _ & S1).
  destruct (store_report_total
              (Dict.set analysis_results now_id
                 {| report := r1; image_path := file1 |})
              now_id iso2 file2 result2) as (r2 & _ & _ & S2).
  do 4 eexists. split; [exact S1|]. split; [exact S2|].
  unfold get_result_api. rewrite !get_set_same.
  split; [reflexivity|]. split; [reflexivity|]. split.
  - rewrite (keys_set (Dict.set analysis_results now_id _)).
    unfold Dict.mem. now rewrite get_set_same.
  - intros M. rewrite keys_set. now rewrite M.
Qed.

End AppFacts.

(* ------------------------------------------------------------------ *)
(** ** bpa_integration.py: the submission client *)

Module BPAFacts.
Import BPAIntegration.
Local Open Scope string_scope.

Section Client.
Context {J L : Type}.

Lemma nonempty_iff (s : string) : PyText.nonempty s = true <-> s <> EmptyString.
Proof. destruct s; simpl; split; congruence. Qed.

Lemma or_else_empty (y : string) :
  PyText.or_else (Some EmptyString) y = PyText.or_else None y.
Proof. reflexivity. Qed.

(** X14. A client takes the URL and the key given to it, and the ones of
    the configuration for those that are not given or given empty.  It is
    configured exactly when both end up non-empty.  A client that is not
    configured answers every submission with the same failure and without
    a request: the answer does not depend on what a request would
    return. *)
Theorem unconfigured_client_sends_nothing :
  forall (config_url config_key : string) (api_url api_key : option string)
         (post post' : poster J L) (data : submission L),
    let client := init config_url config_key api_url api_key in
    BPAIntegration.api_url client = PyText.or_else api_url config_url /\
    BPAIntegration.api_key client = PyText.or_else api_key config_key /\
    init config_url config_key (Some EmptyString) api_key
    = init config_url config_key None api_key /\
    init config_url config_key api_url (Some EmptyString)
    = init config_url config_key api_url None /\
    (is_configured client = true
     <-> BPAIntegration.api_url client <> EmptyString
         /\ BPAIntegration.api_key client <> EmptyString) /\
    (is_configured client = false ->
     submit_classification post client data
     = submit_classification post' client data /\
     exists r,
       submit_classification post client data = inl r /\
       success r = false /\ BPAIntegration.data r = NoData).
Proof.
  intros config_url config_key api_url api_key post post' data client.
  split; [reflexivity|]. split; [reflexivity|].
  split; [reflexivity|]. split; [reflexivity|]. split.
  - subst client. unfold init. cbn [is_configured BPAIntegration.api_url
                                     BPAIntegration.api_key].
    rewrite andb_true_iff, !nonempty_iff. reflexivity.
  - intros N. unfold submit_classification. rewrite N. simpl.
    split; [reflexivity|]. eexists. repeat split.
Qed.

(** X15. A configured client makes one request, to its URL, with the bearer
    key and the JSON content type.  It reports success only for a reply
    with status 200 whose JSON body decodes, and then returns that JSON;
    a reply with another status is a failure that returns the body text.
    A timeout and any other request exception become failure results; the
    only exception that leaves [submit_classification] is one that is
    neither. *)
Theorem submission_outcomes :
  forall (post post' : poster J L) (self : t) (data : submission L),
    let headers :=
      [ ("Authorization", "Bearer " ++ api_key self);
        ("Content-Type", "application/json") ] in
    (post (api_url self) headers data = post' (api_url self) headers data ->
     submit_classification post self data
     = submit_classification post' self data) /\
    (forall r,
        submit_classification post self data = inl r ->
        success r = true ->
        is_configured self = true /\
        exists reply j,
          post (api_url self) headers data = inl reply /\
          status_code reply = 200%Z /\
          json reply = inl j /\
          BPAIntegration.data r = JsonData j) /\
    (forall reply,
        is_configured self = true ->
        post (api_url self) headers data = inl reply ->
        status_code reply <> 200%Z ->
        submit_classification post self data
        = inl {| success := false;
                 message := "BPA API returned status "
                            ++ PyStr.str_of_int (status_code reply);
                 data := TextData (text reply) |}) /\
    (forall e,
        submit_classification post self data = inr e ->
        e = OtherException /\ is_configured self = true).
Proof.
  intros post post' self data headers.
  unfold submit_classification. fold headers.
  destruct (is_configured self); cbn [negb].
  - split; [now intros ->|]. split; [|split].
    + intros r H S. split; [reflexivity|].
      destruct (post (api_url self) headers data) as [reply|e].
      * destruct (Z.eqb_spec (status_code reply) 200) as [E|N].
        -- destruct (json reply) as [j|e] eqn:Ej.
           ++ injection H as <-. eauto 6.
           ++ destruct e; simpl in H; try discriminate;
                injection H as <-; discriminate.
        -- injection H as <-. discriminate.
      * destruct e; simpl in H; try discriminate;
          injection H as <-; discriminate.
    + intros reply _ E N. rewrite E.
      destruct (Z.eqb_spec (status_code reply) 200); [contradiction|].
      reflexivity.
    + intros e H. split; [|reflexivity].
      destruct (post (api_url self) headers data) as [reply|e'].
      * destruct (status_code reply =? 200)%Z; [|discriminate].
        destruct (json reply) as [j|e']; [discriminate|].
        destruct e'; simpl in H; congruence.
      * destruct e'; simpl in H; congruence.
  - split; [reflexivity|]. split; [|split].
    + intros r [= <-]. discriminate.
    + discriminate.
    + discriminate.
Qed.

End Client.
End BPAFacts.

(* ------------------------------------------------------------------ *)
(** ** From an upload to the submission *)

Module SubmissionFacts.
Import ATCScorer Spec App AppFacts.
Local Open Scope string_scope.

(** X16. The submission route answers "Report not found" for an identifier
    that is not stored, whatever the request.  For a report stored by an
    upload, nothing is submitted when [request.get_json()] raises (a request
    without a JSON body: the exception leaves the route) or when the body is
    a truthy value that is not an object ([AttributeError]); a falsy body is
    read as the empty object.  For a JSON object the route submits one
    envelope, tagged with the source "AI-ATC-System" and the version
    "1.0.0", carrying the identifiers of the body and, as classification
    data, the export of the stored report: for a payload whose score maps
    are dicts, the scores submitted are the trait -> score pairs of the
    payload. *)
Theorem submission_carries_the_payload_scores :
  forall (J L : Type) (post : BPAIntegration.poster J L)
         (bpa_client : BPAIntegration.t)
         (analysis_results : results)
         (now_id now_iso sent_iso filename : string) (result : payload),
    Dict.wf (structural_of result) ->
    Dict.wf (udder_of result) ->
    (forall other get_json,
        Dict.mem analysis_results other = false ->
        submit_to_bpa post bpa_client sent_iso analysis_results other get_json
        = inl (NotFound "Report not found")) /\
    exists after stored_report,
      store_report analysis_results now_id now_iso filename result
      = Some (after, stored_report) /\
      (forall e,
          submit_to_bpa post bpa_client sent_iso after now_id (inr e)
          = inr (HTTPException e)) /\
      submit_to_bpa post bpa_client sent_iso after now_id (inl Truthy)
      = inr AttributeError /\
      submit_to_bpa post bpa_client sent_iso after now_id (inl Falsy)
      = submit_to_bpa post bpa_client sent_iso after now_id
          (inl (Object empty_object)) /\
      forall data, exists envelope,
        submit_to_bpa post bpa_client sent_iso after now_id
                      (inl (Object data))
        = match BPAIntegration.submit_classification post bpa_client
                  envelope with
          | inl r => inl (Ok r)
          | inr e => inr (Uncaught e)
          end /\
        BPAIntegration.source envelope = "AI-ATC-System" /\
        BPAIntegration.version envelope = "1.0.0" /\
        BPAIntegration.submission_timestamp envelope = sent_iso /\
        BPAIntegration.animal_id envelope = body_animal_id data /\
        BPAIntegration.farmer_id envelope = body_farmer_id data /\
        BPAIntegration.location envelope = body_location data /\
        BPAIntegration.classification_data envelope
        = export_for_bpa (report stored_report) /\
        BpaExport.report_id (BPAIntegration.classification_data envelope)
        = now_id /\
        BpaExport.structural_scores
          (BPAIntegration.classification_data envelope)
        = score_pairs (structural_of result) /\
        BpaExport.udder_scores (BPAIntegration.classification_data envelope)
        = score_pairs (udder_of result).
Proof.
  intros J L post bpa_client analysis_results now_id now_iso sent_iso filename
         result Ws Wu.
  split.
  - intros other get_json M. unfold submit_to_bpa. unfold Dict.mem in M.
    destruct (Dict.get analysis_results other); [discriminate | reflexivity].
  - destruct (store_report_total analysis_results now_id now_iso filename
                result) as (r & F & I & S).
    destruct (ReportFacts.format_report_total now_id now_iso result)
      as (s & u & Fs & Fu & R).
    rewrite R in F. injection F as <-.
    eexists. eexists. split; [exact S|].
    unfold submit_to_bpa. rewrite get_set_same.
    cbn [body_or_empty]. cbv zeta.
    split; [reflexivity|]. split; [reflexivity|]. split; [reflexivity|].
    intros data. eexists. split; [reflexivity|].
    cbn [BPAIntegration.format_submission BPAIntegration.source
         BPAIntegration.version BPAIntegration.submission_timestamp
         BPAIntegration.animal_id BPAIntegration.farmer_id
         BPAIntegration.location BPAIntegration.classification_data
         App.report].
    do 8 (split; [reflexivity|]).
    unfold export_for_bpa.
    cbn [BpaExport.structural_scores BpaExport.udder_scores Report.scores
         Scores.structural Scores.udder].
    split.
    + exact (ReportFacts.flatten_format _ _ _ Ws Fs).
    + exact (ReportFacts.flatten_format _ _ _ Wu Fu).
Qed.

(** An upload followed by three submissions to a client whose request is
    answered with status 200: a request without a JSON body, a body that is
    a JSON array, and an object naming the animal. *)
Lemma submission_carries_the_payload_scores_witness :
  let post : BPAIntegration.poster string string :=
    fun _ _ _ =>
      inl {| BPAIntegration.status_code := 200%Z;
             BPAIntegration.text := "{}";
             BPAIntegration.json := inl "{}" |} in
  let bpa_client :=
    BPAIntegration.init "https://bpa.example/atc" "key" None None in
  let submitted :=
    inl (Ok {| BPAIntegration.success := true;
               BPAIntegration.message := "Data successfully submitted to BPA";
               BPAIntegration.data := BPAIntegration.JsonData "{}" |}) in
  exists after stored_report,
    store_report [] "20240101120000" "2024-01-01T12:00:00" "cow.jpg"
      (payload_of_scores [ ("stature", entry 7) ] [ ("fore_udder", entry 4) ])
    = Some (after, stored_report) /\
    submit_to_bpa post bpa_client "2024-01-01T12:05:00" after
      "20240101120000" (inr UnsupportedMediaType)
    = inr (HTTPException UnsupportedMediaType) /\
    submit_to_bpa post bpa_client "2024-01-01T12:05:00" after
      "20240101120000" (inl Truthy)
    = inr AttributeError /\
    submit_to_bpa post bpa_client "2024-01-01T12:05:00" after
      "20240101120000"
      (inl (Object {| body_animal_id := Some "COW-17";
                      body_farmer_id := None;
                      body_location := None |}))
    = submitted.
Proof.
  intros post bpa_client submitted.
  destruct (submission_carries_the_payload_scores string string
              post bpa_client
              [] "20240101120000" "2024-01-01T12:00:00"
              "2024-01-01T12:05:00" "cow.jpg"
              (payload_of_scores [ ("stature", entry 7) ]
                                 [ ("fore_udder", entry 4) ]))
    as (_ & after & stored_report & S & E & T & _ & O).
  - unfold Dict.wf. simpl. repeat constructor. simpl. tauto.
  - unfold Dict.wf. simpl. repeat constructor. simpl. tauto.
  - exists after, stored_report. split; [exact S|].
    split; [exact (E UnsupportedMediaType)|]. split; [exact T|].
    destruct (O {| body_animal_id := Some "COW-17";
                   body_farmer_id := None;
                   body_location := None |}) as (envelope & R & _).
    rewrite R. reflexivity.
Defined.

End SubmissionFacts.
